(** * JellySentia analysis core: feature vectors and the similarity index

    A shallow embedding of
    - [algorithms/processors.py]  (class [FeatureProcessor]),
    - [client/client.py]          (class [SimilarityIndex]),
    - [server/server.py]          (class [AnalysisService]),
    and the properties of the specification that are checked against it.

    Conventions.
    - Python exceptions are values of [exn]; a computation that may raise
      returns [result A].  A method of an object returns the result paired
      with the object after the call, so that what a failed call leaves
      behind stays visible.
    - Python [float] and numpy [float32] numbers are exact rationals [Q]:
      rounding, infinities and NaN are outside the model.
    - Python [str] is [string] (ASCII text).
    - The file system is a map from paths to file contents; creating a
      directory, writing and reading a file do not fail for reasons of
      their own (a root that cannot be created, permissions, full disk).  FAISS and pickle are faithful: reading a file that one
      of them wrote gives back what was written. *)

From Stdlib Require Import ZArith QArith Lqa Ascii String List Bool Lia.
From stdpp Require Import gmap strings list.

Set Default Proof Using "Type".

(** ** Python runtime: exceptions and the error monad *)

Module Py.

Inductive exn : Type :=
| ValueError
| IndexError
| KeyError
| TypeError
| AttributeError
| AssertionError
| RuntimeError
| OverflowError
| UnpicklingError.

Inductive result (A : Type) : Type :=
| Ok (a : A)
| Raise (e : exn).
Arguments Ok {A} a.
Arguments Raise {A} e.

Definition bind {A B} (r : result A) (k : A -> result B) : result B :=
  match r with
  | Ok a => k a
  | Raise e => Raise e
  end.

Definition is_ok {A} (r : result A) : bool :=
  match r with Ok _ => true | Raise _ => false end.

(** [for x in xs: acc.append(f(x))], stopping at the first exception. *)
Fixpoint mapM {A B} (f : A -> result B) (xs : list A) : result (list B) :=
  match xs with
  | [] => Ok []
  | x :: xs' =>
      bind (f x) (fun y => bind (mapM f xs') (fun ys => Ok (y :: ys)))
  end.

(** [len(l)] as a Python int. *)
Definition len {A} (l : list A) : Z := Z.of_nat (length l).

(** [l[i]] on a Python list: a negative index counts from the end, an
    index outside [-len(l), len(l)) raises IndexError. *)
Definition getitem {A} (l : list A) (i : Z) : result A :=
  let j := (if i <? 0 then i + len l else i)%Z in
  if (j <? 0)%Z then Raise IndexError
  else match l !! Z.to_nat j with
       | Some x => Ok x
       | None => Raise IndexError
       end.

(** Comparison of floats. *)
Definition Qltb (x y : Q) : bool := negb (Qle_bool y x).

End Py.

#[global] Instance result_ret : MRet Py.result := @Py.Ok.
#[global] Instance result_bind : MBind Py.result :=
  fun A B k r => Py.bind r k.

(** ** processors.py *)

Module Processors.
Import Py.

(** A value of the features dictionary ([Dict[str, Any]]).  [bool] is a
    subclass of [int] in Python and is covered by [VInt]; [VOther] stands
    for every value that is neither a number nor a string (None, lists,
    numpy scalars that are not Python floats, ...). *)
Inductive value : Type :=
| VInt (z : Z)
| VFloat (q : Q)
| VStr (s : string)
| VOther.

(** *** The string methods used by [create_feature_vector] *)

Definition is_digit (c : ascii) : bool :=
  let n := nat_of_ascii c in (48 <=? n)%nat && (n <=? 57)%nat.

Definition is_dot (c : ascii) : bool := Ascii.eqb c "."%char.

Fixpoint all_digits (s : string) : bool :=
  match s with
  | EmptyString => true
  | String c s' => is_digit c && all_digits s'
  end.

(** [s.isdigit()]: every character is a digit and there is at least one. *)
Definition isdigit (s : string) : bool :=
  match s with
  | EmptyString => false
  | _ => all_digits s
  end.

(** [s.replace('.', '')]. *)
Fixpoint remove_dots (s : string) : string :=
  match s with
  | EmptyString => EmptyString
  | String c s' => if is_dot c then remove_dots s' else String c (remove_dots s')
  end.

(** The text before the first dot and, when there is a dot, the text
    after it. *)
Fixpoint split_dot (s : string) : string * option string :=
  match s with
  | EmptyString => (EmptyString, None)
  | String c s' =>
      if is_dot c then (EmptyString, Some s')
      else let '(a, b) := split_dot s' in (String c a, b)
  end.

Definition digit_value (c : ascii) : Z := Z.of_nat (nat_of_ascii c) - 48.

Fixpoint digits_value (acc : Z) (s : string) : Z :=
  match s with
  | EmptyString => acc
  | String c s' => digits_value (10 * acc + digit_value c) s'
  end.

(** [float(s)] for a string: the decimal literals [ddd], [ddd.], [.ddd]
    and [ddd.ddd] are read, anything else in the alphabet of digits and
    dots raises ValueError (two dots, a lone dot, the empty string).
    Signs, exponents, blanks, [inf] and [nan] are not covered: a string
    that holds one of them never reaches [float] in
    [create_feature_vector], see [guard_alphabet]. *)
Definition float_of_str (s : string) : result Q :=
  match split_dot s with
  | (ip, None) =>
      if isdigit ip then Ok (inject_Z (digits_value 0 ip)) else Raise ValueError
  | (ip, Some fp) =>
      if all_digits ip && all_digits fp
         && negb (String.length ip + String.length fp =? 0)%nat
      then Ok (Qmake (digits_value 0 (ip ++ fp))
                     (Z.to_pos (10 ^ Z.of_nat (String.length fp))))
      else Raise ValueError
  end.

(** [float(z)] for an int: integers that round to a magnitude above the
    largest double raise OverflowError. *)
Definition float_of_int (z : Z) : result Q :=
  if (Z.abs z <? 2 ^ 1024 - 2 ^ 970)%Z then Ok (inject_Z z)
  else Raise OverflowError.

(** *** FeatureProcessor *)

Definition feature_order : list string :=
  [ "tempo"; "energy"; "danceability"; "valence"; "acousticness";
    "instrumentalness"; "speechiness"; "loudness"; "spectral_centroid";
    "spectral_rolloff"; "zero_crossing_rate"; "dynamic_complexity";
    "beats_confidence"; "onset_rate"; "key_strength"; "dissonance" ]%string.

(** One turn of the loop of [create_feature_vector]: the number appended
    to [vector_values] for [feature_name]. *)
Definition feature_value (features : gmap string value) (feature_name : string)
  : result Q :=
  match features !! feature_name with
  | Some value =>
      match value with
      | VInt z => float_of_int z
      | VFloat q => Ok q
      | VStr s => if isdigit (remove_dots s) then float_of_str s else Ok 0%Q
      | VOther => Ok 0%Q
      end
  | None => Ok 0%Q
  end.

(** [vector_values] at the end of the loop. *)
Definition vector_values (features : gmap string value) : result (list Q) :=
  mapM (feature_value features) feature_order.

(** Line 68 of [_normalize_vector]: the tempo slot. *)
Definition tempo_component (t : Q) : Q :=
  if Qltb 0 t then ((t - 60) / 140)%Q else 0%Q.

Definition normalize_tempo (vector : list Q) : list Q :=
  match vector with
  | [] => []
  | t :: rest => tempo_component t :: rest
  end.

(** [np.clip(x, 0, 1)] on one component. *)
Definition clip01 (x : Q) : Q :=
  if Qltb x 0 then 0%Q else if Qltb 1 x then 1%Q else x.

Definition sum_squares (v : list Q) : Q :=
  fold_right (fun x acc => (x * x + acc)%Q) 0%Q v.

Section Normalize.

(** The square root of [np.linalg.norm], which the rationals do not have. *)
Variable sqrt : Q -> Q.

Definition linalg_norm (v : list Q) : Q := sqrt (sum_squares v).

Definition _normalize_vector (vector : list Q) : list Q :=
  let normalized := normalize_tempo vector in
  let normalized := map clip01 normalized in
  let norm := linalg_norm normalized in
  if Qltb 0 norm then map (fun x => (x / norm)%Q) normalized
  else normalized.

Definition create_feature_vector (features : gmap string value)
  : result (list Q) :=
  vector ← vector_values features;
  Ok (_normalize_vector vector).

(** [process_batch]. *)
Definition process_batch (feature_list : list (gmap string value))
  : result (list (list Q)) :=
  mapM create_feature_vector feature_list.

End Normalize.

End Processors.

(** ** client.py *)

Module Client.
Import Py.

(** *** numpy arrays

    The arrays that reach the index: a 1-D float array, a 2-D float array
    of shape [(len rows, d)] (every row has [d] components, [wf_ndarray]),
    and the 1-D object array numpy makes of rows of different lengths.
    Arrays of three or more axes are not modelled. *)
Inductive ndarray : Type :=
| Array1 (xs : list Q)
| Array2 (d : nat) (rows : list (list Q))
| ArrayObj (rows : list (list Q)).

Definition wf_ndarray (a : ndarray) : Prop :=
  match a with
  | Array1 _ => True
  | Array2 d rows => Forall (fun r => length r = d) rows
  | ArrayObj rows => exists r1 r2, r1 ∈ rows /\ r2 ∈ rows /\ length r1 <> length r2
  end.

(** [a.shape]. *)
Definition shape (a : ndarray) : list nat :=
  match a with
  | Array1 xs => [length xs]
  | Array2 d rows => [length rows; d]
  | ArrayObj rows => [length rows]
  end.

(** [len(a)]: the first axis. *)
Definition ndarray_len (a : ndarray) : nat :=
  match a with
  | Array1 xs => length xs
  | Array2 _ rows => length rows
  | ArrayObj rows => length rows
  end.

(** [a.shape[i]]: a tuple index out of range raises IndexError. *)
Definition shape_at (a : ndarray) (i : nat) : result nat :=
  match nth_error (shape a) i with
  | Some n => Ok n
  | None => Raise IndexError
  end.

(** The vectors an array holds, one per entry of the first axis (the
    entries of a 1-D float array are scalars: vectors of no component). *)
Definition rows_of (a : ndarray) : list (list Q) :=
  match a with
  | Array1 xs => map (fun _ => []) xs
  | Array2 _ rows => rows
  | ArrayObj rows => rows
  end.

(** [a.ndim]. *)
Definition ndim (a : ndarray) : nat := length (shape a).

(** [a.reshape(1, -1)] for a 1-D array; an object array stays one. *)
Definition reshape_row (a : ndarray) : ndarray :=
  match a with
  | Array1 xs => Array2 (length xs) [xs]
  | other => other
  end.

(** *** The FAISS index

    What the Python wrapper of [faiss.IndexHNSWFlat] shows of the index:
    its dimension [d], the construction parameters and the stored vectors
    in insertion order (internal id = position).  The neighbour graph and
    the search over it stay abstract, see [hnsw_search] below. *)
Module faiss.

Record Index : Type := mkIndex {
  d : nat;
  hnsw_M : nat;
  efConstruction : nat;
  xb : list (list Q)
}.

Definition IndexHNSWFlat (dim M : nat) : Index :=
  {| d := dim; hnsw_M := M; efConstruction := 40; xb := [] |}.

Definition set_efConstruction (ix : Index) (ef : nat) : Index :=
  {| d := d ix; hnsw_M := hnsw_M ix; efConstruction := ef; xb := xb ix |}.

Definition ntotal (ix : Index) : nat := length (xb ix).

(** [index.add(x)]: the wrapper unpacks [n, d = x.shape] (ValueError when
    the array is not 2-D), asserts [d == self.d], then appends the rows. *)
Definition add (ix : Index) (x : ndarray) : result Index :=
  match x with
  | Array2 dx rows =>
      if (dx =? d ix)%nat
      then Ok {| d := d ix; hnsw_M := hnsw_M ix;
                 efConstruction := efConstruction ix;
                 xb := xb ix ++ rows |}
      else Raise AssertionError
  | Array1 _ => Raise ValueError
  | ArrayObj _ => Raise ValueError
  end.

(** The label FAISS gives a result slot it could not fill. *)
Definition not_found : Z := (-1)%Z.

(** The distance FAISS leaves in such a slot (the largest float32). *)
Definition FLT_MAX : Q := inject_Z ((2 ^ 24 - 1) * 2 ^ 104).

End faiss.

(** *** Files *)

(** What [pickle.load] returns for the metadata file: the dictionary
    written by [_save_index], possibly without some of its keys, or any
    other object. *)
Inductive pyobj : Type :=
| PyDict (item_ids : option (list string)) (dimension : option (option nat))
| PyOther.

(** A file holds a serialized index, a pickle, or bytes that are neither. *)
Inductive file : Type :=
| FaissFile (ix : faiss.Index)
| PickleFile (o : pyobj)
| Garbage.

(** [os.path.join(root, name)] for a relative [name]. *)
Definition ends_with_slash (s : string) : bool :=
  match String.rev s with
  | String c _ => Ascii.eqb c "/"%char
  | EmptyString => false
  end.

Definition path_join (root name : string) : string :=
  if String.eqb root "" then name
  else if ends_with_slash root then (root ++ name)%string
  else (root ++ "/" ++ name)%string.

(** [faiss.write_index] and [faiss.read_index]; [pickle.dump] and
    [pickle.load]. *)
Definition write_index (ix : faiss.Index) : file := FaissFile ix.

Definition read_index (f : option file) : result faiss.Index :=
  match f with
  | Some (FaissFile ix) => Ok ix
  | _ => Raise RuntimeError
  end.

Definition pickle_dump (o : pyobj) : file := PickleFile o.

Definition pickle_load (f : option file) : result pyobj :=
  match f with
  | Some (PickleFile o) => Ok o
  | _ => Raise UnpicklingError
  end.

(** [metadata['item_ids']] and [metadata['dimension']]. *)
Definition metadata_item_ids (o : pyobj) : result (list string) :=
  match o with
  | PyDict (Some ids) _ => Ok ids
  | PyDict None _ => Raise KeyError
  | PyOther => Raise TypeError
  end.

Definition metadata_dimension (o : pyobj) : result (option nat) :=
  match o with
  | PyDict _ (Some dim) => Ok dim
  | PyDict _ None => Raise KeyError
  | PyOther => Raise TypeError
  end.

(** *** SimilarityIndex *)

Record SimilarityIndex : Type := mkSimilarityIndex {
  index_path : string;
  index : option faiss.Index;
  item_ids : list string;
  dimension : option nat
}.

(** The instance a method runs on and the file system it writes to. *)
Record world : Type := mkWorld {
  self : SimilarityIndex;
  fs : gmap string file
}.

Definition set_index (ix : option faiss.Index) (w : world) : world :=
  {| self := {| index_path := index_path (self w); index := ix;
                item_ids := item_ids (self w);
                dimension := dimension (self w) |};
     fs := fs w |}.

Definition set_item_ids (ids : list string) (w : world) : world :=
  {| self := {| index_path := index_path (self w); index := index (self w);
                item_ids := ids; dimension := dimension (self w) |};
     fs := fs w |}.

Definition set_dimension (dim : option nat) (w : world) : world :=
  {| self := {| index_path := index_path (self w); index := index (self w);
                item_ids := item_ids (self w); dimension := dim |};
     fs := fs w |}.

Definition write_file (path : string) (f : file) (w : world) : world :=
  {| self := self w; fs := <[path := f]> (fs w) |}.

(** A method body: it reads and updates the world and returns or raises;
    the world is as the body left it either way. *)
Definition M (A : Type) : Type := world -> result A * world.

Definition ret {A} (a : A) : M A := fun w => (Ok a, w).

Definition raise {A} (e : exn) : M A := fun w => (Raise e, w).

Definition seq {A B} (c : M A) (k : A -> M B) : M B :=
  fun w => match c w with
           | (Ok a, w') => k a w'
           | (Raise e, w') => (Raise e, w')
           end.

Definition get : M world := fun w => (Ok w, w).

Definition modify (f : world -> world) : M unit := fun w => (Ok tt, f w).

(** A callee that raises makes the caller raise too. *)
Definition lift {A} (r : result A) : M A := fun w => (r, w).

(** [try: body except Exception as e: handler]. *)
Definition try_except {A} (body : M A) (handler : exn -> M A) : M A :=
  fun w => match body w with
           | (Ok a, w') => (Ok a, w')
           | (Raise e, w') => handler e w'
           end.

#[global] Instance M_ret : MRet M := @ret.
#[global] Instance M_bind : MBind M := fun A B k c => seq c k.

(** [_save_index] (lines 101-118): both artifacts are rewritten under the
    storage root.  [faiss.write_index(None, ...)] raises.  The map holds
    files only: [os.makedirs] (line 103) has nothing to add to it, and
    like the two writes it is taken to succeed, so the failures of a save
    on a root that cannot be created or written are not in the model.
    The properties of a save are stated of a save that returned. *)
Definition index_file (w : world) : string :=
  path_join (index_path (self w)) "faiss.index".

Definition metadata_file (w : world) : string :=
  path_join (index_path (self w)) "metadata.pkl".

Definition save_faiss_file : M unit :=
  w ← get;
  match index (self w) with
  | Some ix => modify (write_file (index_file w) (write_index ix))
  | None => raise TypeError
  end.

Definition save_metadata_file : M unit :=
  w ← get;
  let metadata := PyDict (Some (item_ids (self w))) (Some (dimension (self w))) in
  modify (write_file (metadata_file w) (pickle_dump metadata)).

Definition _save_index : M unit :=
  _ ← save_faiss_file;
  save_metadata_file.

(** [_load_index] (lines 120-140). *)
Definition exists_file (w : world) (path : string) : bool :=
  bool_decide (is_Some (fs w !! path)).

Definition _load_index : M unit :=
  w ← get;
  if exists_file w (index_file w) && exists_file w (metadata_file w) then
    try_except
      (ix ← lift (read_index (fs w !! index_file w));
       _ ← modify (set_index (Some ix));
       metadata ← lift (pickle_load (fs w !! metadata_file w));
       ids ← lift (metadata_item_ids metadata);
       _ ← modify (set_item_ids ids);
       dim ← lift (metadata_dimension metadata);
       modify (set_dimension dim))
      (fun e => modify (set_index None))
  else ret tt.

(** [__init__] (lines 18-25).  Line 19 is
    [index_path or os.environ.get('FAISS_INDEX_PATH', '/data/index')]:
    an argument that is None or the empty string gives way to the
    environment. *)
Definition resolve_index_path (index_path : option string)
    (environ : gmap string string) : string :=
  let from_environ := default "/data/index"%string (environ !! "FAISS_INDEX_PATH"%string) in
  match index_path with
  | Some path => if String.eqb path "" then from_environ else path
  | None => from_environ
  end.

Definition new_instance (path : string) : SimilarityIndex :=
  {| index_path := path; index := None; item_ids := []; dimension := None |}.

Definition __init__ (index_path : option string)
    (environ : gmap string string) (disk : gmap string file)
  : result unit * world :=
  _load_index {| self := new_instance (resolve_index_path index_path environ);
                 fs := disk |}.

(** [build] (lines 27-52). *)
Definition build (vectors : ndarray) (ids : list string) : M unit :=
  if negb (ndarray_len vectors =? length ids)%nat then raise ValueError
  else
    dim ← lift (shape_at vectors 1);
    _ ← modify (set_dimension (Some dim));
    _ ← modify (set_item_ids ids);
    w ← get;
    d ← lift (match dimension (self w) with
              | Some d => Ok d
              | None => Raise TypeError
              end);
    _ ← modify (set_index (Some (faiss.IndexHNSWFlat d 32)));
    w ← get;
    ix ← lift (match index (self w) with
               | Some ix => Ok (faiss.set_efConstruction ix 40)
               | None => Raise AttributeError
               end);
    _ ← modify (set_index (Some ix));
    w ← get;
    ix ← lift (match index (self w) with
               | Some ix => faiss.add ix vectors
               | None => Raise AttributeError
               end);
    _ ← modify (set_index (Some ix));
    _save_index.

(** [add_items] (lines 87-99). *)
Definition add_items (vectors : ndarray) (ids : list string) : M unit :=
  w ← get;
  match index (self w) with
  | None => build vectors ids
  | Some ix =>
      ix' ← lift (faiss.add ix vectors);
      _ ← modify (set_index (Some ix'));
      _ ← modify (fun w => set_item_ids (item_ids (self w) ++ ids) w);
      _save_index
  end.

Section Search.

(** The approximate nearest-neighbour search of the HNSW graph for one
    query row: [k] result slots, each a distance and an internal id, the
    unfilled ones holding [faiss.not_found]. *)
Variable hnsw_search : faiss.Index -> list Q -> nat -> list (Q * Z).

(** [index.search(x, k)]: the wrapper unpacks [n, d = x.shape], converts
    to float32, asserts [d == self.d] and [k > 0]; one result row per
    query row. *)
Definition faiss_search (ix : faiss.Index) (x : ndarray) (k : Z)
  : result (list (list (Q * Z))) :=
  match x with
  | Array2 dx rows =>
      if negb (dx =? faiss.d ix)%nat then Raise AssertionError
      else if negb (0 <? k)%Z then Raise AssertionError
      else Ok (map (fun q => hnsw_search ix q (Z.to_nat k)) rows)
  | Array1 _ => Raise ValueError
  | ArrayObj _ => Raise ValueError
  end.

(** The loop of [search] (lines 76-83) over the slots of the first
    result row. *)
Fixpoint search_results (ids : list string) (slots : list (Q * Z))
  : result (list (string * Q * Q)) :=
  match slots with
  | [] => Ok []
  | (distance, idx) :: rest =>
      if (idx <? len ids)%Z then
        let similarity := (1 / (1 + distance))%Q in
        item ← getitem ids idx;
        results ← search_results ids rest;
        Ok ((item, distance, similarity) :: results)
      else search_results ids rest
  end.

(** [search] (lines 54-85).  It changes nothing, so it is a function of
    the instance. *)
Definition search (s : SimilarityIndex) (query_vector : ndarray) (k : Z)
  : result (list (string * Q * Q)) :=
  match index s with
  | None => Raise RuntimeError
  | Some ix =>
      let query_vector :=
        if (ndim query_vector =? 1)%nat then reshape_row query_vector
        else query_vector in
      found ← faiss_search ix query_vector k;
      first_row ← getitem found 0;
      search_results (item_ids s) first_row
  end.

End Search.

(** An exhaustive search, for running the model: squared L2 distances to
    every stored vector, nearest first, the slots left over filled with
    [faiss.not_found].  It is what the HNSW search returns when it visits
    the whole graph. *)
Definition l2_sqr (x y : list Q) : Q :=
  fold_right Qplus 0%Q (zip_with (fun a b => ((a - b) * (a - b))%Q) x y).

Fixpoint insert_slot (s : Q * Z) (slots : list (Q * Z)) : list (Q * Z) :=
  match slots with
  | [] => [s]
  | h :: t => if Qltb (fst s) (fst h) then s :: slots else h :: insert_slot s t
  end.

Definition exact_search (ix : faiss.Index) (q : list Q) (k : nat)
  : list (Q * Z) :=
  let scored := imap (fun i v => (l2_sqr q v, Z.of_nat i)) (faiss.xb ix) in
  let sorted := fold_right insert_slot [] scored in
  take k (sorted ++ repeat (faiss.FLT_MAX, faiss.not_found) k).

(** *** Vocabulary of the specification *)

(** The index has been built with dimension [D]. *)
Definition built_with (s : SimilarityIndex) (D : nat) : Prop :=
  exists ix, index s = Some ix /\ faiss.d ix = D /\ dimension s = Some D.

(** [len(item_ids) == ANN structure size]; an instance without ANN
    structure holds no vector. *)
Definition ann_size (s : SimilarityIndex) : nat :=
  match index s with
  | Some ix => faiss.ntotal ix
  | None => 0
  end.

Definition aligned (s : SimilarityIndex) : Prop :=
  length (item_ids s) = ann_size s.

(** All the vectors of an array have one and the same dimension. *)
Definition share_one_dimension (a : ndarray) : Prop :=
  exists D, Forall (fun r => length r = D) (rows_of a).

(** No ANN structure, empty id list, unset dimension. *)
Definition uninitialized (s : SimilarityIndex) : Prop :=
  index s = None /\ item_ids s = [] /\ dimension s = None.

(** *** Worlds used to run the model *)

(** A fresh instance over an empty default storage root. *)
Definition empty_world : world :=
  snd (__init__ None ∅ ∅).

(** The same after [build] with the two unit vectors "a" and "b". *)
Definition two_items : world :=
  snd (build (Array2 2 [[1; 0]; [0; 1]]%Q) ["a"; "b"]%string empty_world).

(** The same after [build] with no vector at all. *)
Definition no_items : world :=
  snd (build (Array2 2 []) [] empty_world).

(** The instance of [two_items] in memory, over a storage root that holds
    no file yet. *)
Definition unsaved_items : world :=
  {| self := self two_items; fs := ∅ |}.

End Client.

(** ** server.py: the analysis service *)

Module Server.
Import Py Processors.

(** Modelled from the spec: the protobuf messages of [analysis_pb2]
    (generated code that is not among the sources), with the fields that
    [server.py] fills and reads; a field left out by the caller has its
    protobuf default. *)
Module AnalysisRequest.
Record t : Type := mk {
  file_path : string;
  depth : string;
  descriptors : list string
}.
End AnalysisRequest.

Module BatchAnalysisRequest.
Record t : Type := mk {
  file_paths : list string;
  depth : string;
  descriptors : list string
}.
End BatchAnalysisRequest.

Module AnalysisResponse.
Record t : Type := mk {
  file_path : string;
  features : gmap string string;
  feature_vector : list Q;
  error : string
}.
End AnalysisResponse.

Module AnalysisProgress.
Record t : Type := mk {
  total : Z;
  completed : Z;
  errors : Z;
  current_file : string;
  progress_percent : Q
}.
End AnalysisProgress.

(** The gRPC context of a call: the status code and details set on it. *)
Inductive StatusCode : Type := INTERNAL.

Record ServicerContext : Type := mkContext {
  code : option StatusCode;
  details : option string
}.

Section Service.

Variable sqrt : Q -> Q.

(** [AudioAnalyzer.analyze_file] (extractors.py, over Essentia): the
    features of a file, or the exception it re-raises. *)
Variable analyze_file : string -> string -> list string -> result (gmap string value).

(** [str(v)] of a feature value and [str(e)] of an exception. *)
Variable str_value : value -> string.
Variable str_exn : exn -> string.

(** [AnalyzeTrack] (lines 40-71). *)
Definition AnalyzeTrack (request : AnalysisRequest.t) (context : ServicerContext)
  : result AnalysisResponse.t * ServicerContext :=
  let body :=
    features ← analyze_file (AnalysisRequest.file_path request)
                            (AnalysisRequest.depth request)
                            (AnalysisRequest.descriptors request);
    feature_vector ← create_feature_vector sqrt features;
    let string_features := str_value <$> features in
    Ok (AnalysisResponse.mk (AnalysisRequest.file_path request)
                            string_features feature_vector "")
  in
  match body with
  | Ok response => (Ok response, context)
  | Raise e =>
      (Ok (AnalysisResponse.mk (AnalysisRequest.file_path request) ∅ []
                               (str_exn e)),
       {| code := Some INTERNAL; details := Some (str_exn e) |})
  end.

(** The loop of [AnalyzeBatch] (lines 79-103) over the paths still to
    do; the records it yields, in order. *)
Fixpoint batch_loop (request : BatchAnalysisRequest.t)
    (total completed errors : Z) (todo : list string)
    (context : ServicerContext)
  : list AnalysisProgress.t * ServicerContext :=
  match todo with
  | [] => ([], context)
  | file_path :: todo' =>
      let single_request :=
        AnalysisRequest.mk file_path (BatchAnalysisRequest.depth request)
                           (BatchAnalysisRequest.descriptors request) in
      let '(outcome, context) := AnalyzeTrack single_request context in
      let '(completed, errors) :=
        match outcome with
        | Ok _ => ((completed + 1)%Z, errors)
        | Raise _ => (completed, (errors + 1)%Z)
        end in
      let progress :=
        AnalysisProgress.mk total completed errors file_path
          ((inject_Z completed / inject_Z total) * 100)%Q in
      let '(later, context) :=
        batch_loop request total completed errors todo' context in
      (progress :: later, context)
  end.

(** [AnalyzeBatch] (lines 73-103), the generator consumed to its end. *)
Definition AnalyzeBatch (request : BatchAnalysisRequest.t)
    (context : ServicerContext)
  : list AnalysisProgress.t * ServicerContext :=
  batch_loop request (len (BatchAnalysisRequest.file_paths request)) 0 0
             (BatchAnalysisRequest.file_paths request) context.

End Service.

(** An analysis used to run the model: it fails on "bad.mp3" and finds a
    tempo of 120 in every other file. *)
Definition sample_analysis (path depth : string) (descriptors : list string)
  : result (gmap string value) :=
  if String.eqb path "bad.mp3" then Raise RuntimeError
  else Ok {[ "tempo"%string := VFloat 120 ]}.

Definition sample_batch : BatchAnalysisRequest.t :=
  BatchAnalysisRequest.mk ["one.mp3"; "bad.mp3"]%string "standard" [].

End Server.

(** ** The shared index under the server's thread pool

    [serve] runs the handlers on ten worker threads over one
    [SimilarityIndex]; neither the class nor the handlers take a lock.
    A mutating call is the sequence of its statements, each one atomic
    here, and a scheduler picks the thread that runs next. *)

Module Threads.
Import Py Client.

Inductive stmt : Type :=
| CheckCounts (vectors : ndarray) (ids : list string)   (* lines 35-36 *)
| SetDimension (vectors : ndarray)                      (* line 38 *)
| SetItemIds (ids : list string)                        (* line 39 *)
| NewIndex                                              (* line 43 *)
| SetEfConstruction                                     (* line 44 *)
| IndexAdd (vectors : ndarray)                          (* lines 47, 95 *)
| ExtendItemIds (ids : list string)                     (* line 96 *)
| WriteIndexFile                                        (* lines 106-107 *)
| WriteMetadataFile                                     (* lines 110-116 *)
| AddItemsEntry (vectors : ndarray) (ids : list string) (* line 89 *).

Definition build_body (vectors : ndarray) (ids : list string) : list stmt :=
  [ CheckCounts vectors ids; SetDimension vectors; SetItemIds ids;
    NewIndex; SetEfConstruction; IndexAdd vectors;
    WriteIndexFile; WriteMetadataFile ].

Definition add_items_body (vectors : ndarray) (ids : list string) : list stmt :=
  [ IndexAdd vectors; ExtendItemIds ids; WriteIndexFile; WriteMetadataFile ].

(** One statement; it returns the statements its branch adds in front of
    the rest of the call. *)
Definition exec (s : stmt) : M (list stmt) :=
  match s with
  | CheckCounts vectors ids =>
      if negb (ndarray_len vectors =? length ids)%nat then raise ValueError
      else ret []
  | SetDimension vectors =>
      dim ← lift (shape_at vectors 1);
      _ ← modify (set_dimension (Some dim));
      ret []
  | SetItemIds ids =>
      _ ← modify (set_item_ids ids);
      ret []
  | NewIndex =>
      w ← get;
      d ← lift (match dimension (self w) with
                | Some d => Ok d
                | None => Raise TypeError
                end);
      _ ← modify (set_index (Some (faiss.IndexHNSWFlat d 32)));
      ret []
  | SetEfConstruction =>
      w ← get;
      ix ← lift (match index (self w) with
                 | Some ix => Ok (faiss.set_efConstruction ix 40)
                 | None => Raise AttributeError
                 end);
      _ ← modify (set_index (Some ix));
      ret []
  | IndexAdd vectors =>
      w ← get;
      ix ← lift (match index (self w) with
                 | Some ix => faiss.add ix vectors
                 | None => Raise AttributeError
                 end);
      _ ← modify (set_index (Some ix));
      ret []
  | ExtendItemIds ids =>
      _ ← modify (fun w => set_item_ids (item_ids (self w) ++ ids) w);
      ret []
  | WriteIndexFile =>
      _ ← save_faiss_file;
      ret []
  | WriteMetadataFile =>
      _ ← save_metadata_file;
      ret []
  | AddItemsEntry vectors ids =>
      w ← get;
      match index (self w) with
      | None => ret (build_body vectors ids)
      | Some _ => ret (add_items_body vectors ids)
      end
  end.

(** A worker thread inside a mutating call. *)
Inductive thread : Type :=
| Running (todo : list stmt)
| Returned
| Raised (e : exn).

Definition continue (todo : list stmt) : thread :=
  match todo with
  | [] => Returned
  | _ => Running todo
  end.

Definition call_build (vectors : ndarray) (ids : list string) : thread :=
  Running (build_body vectors ids).


Definition outcome (r : result unit) : thread :=
  match r with
  | Ok _ => Returned
  | Raise e => Raised e
  end.

Record config : Type := mkConfig {
  shared : world;
  pool : list thread
}.

(** Thread [i] runs its next statement. *)
Definition step (i : nat) (c : config) : option config :=
  match pool c !! i with
  | Some (Running (s :: rest)) =>
      match exec s (shared c) with
      | (Ok more, w') =>
          Some {| shared := w'; pool := <[i := continue (more ++ rest)]> (pool c) |}
      | (Raise e, w') =>
          Some {| shared := w'; pool := <[i := Raised e]> (pool c) |}
      end
  | _ => None
  end.

Fixpoint run (schedule : list nat) (c : config) : option config :=
  match schedule with
  | [] => Some c
  | i :: schedule' =>
      match step i c with
      | Some c' => run schedule' c'
      | None => None
      end
  end.







(** Two [BuildIndex] requests on the index of "a" and "b". *)
Definition two_builders : config :=
  {| shared := two_items;
     pool := [ call_build (Array2 2 [[1; 1]]%Q) ["x"]%string;
               call_build (Array2 2 [[2; 0]; [0; 2]]%Q) ["y"; "z"]%string ] |}.

(** The schedule that lets the first builder run lines 35-39, then the
    second builder run its whole call, then the first builder finish. *)
Definition overlapping : list nat :=
  [0; 0; 0; 1; 1; 1; 1; 1; 1; 1; 1; 0; 0; 0; 0; 0]%nat.

End Threads.

(** ** A norm to run the feature vector with

    [np.linalg.norm] has no exact counterpart on the rationals.  The
    square root rounded up to a multiple of [1 / den] is exact on the
    squares of such multiples and never below the true root. *)

Module Norm.

Definition Qsqrt_up (s : Q) : Q :=
  Qmake (Z.sqrt_up (Qnum s * Z.pos (Qden s))) (Qden s).

End Norm.

(** ** server.py: the similarity service *)

Module SimilarityServer.
Import Py Client Server.

(** A [bytes] field read as float32 data: the numbers it holds when its
    length is a multiple of four (what [tobytes] of a float32 array
    gives), or a buffer of any other length. *)
Inductive bytes : Type :=
| Float32Buffer (xs : list Q)
| MisalignedBuffer.

(** [np.frombuffer(b, dtype=np.float32)]: a 1-D array, or ValueError when
    the size of the buffer is no multiple of the element size. *)
Definition frombuffer (b : bytes) : result (list Q) :=
  match b with
  | Float32Buffer xs => Ok xs
  | MisalignedBuffer => Raise ValueError
  end.

(** Modelled from the spec: the protobuf messages of [analysis_pb2]
    (generated code that is not among the sources), with the fields that
    [server.py] fills and reads. *)
Module IndexItem.
Record t : Type := mk {
  item_id : string;
  feature_vector : bytes
}.
End IndexItem.

Module BuildIndexRequest.
Record t : Type := mk {
  items : list IndexItem.t
}.
End BuildIndexRequest.

Module BuildIndexResponse.
Record t : Type := mk {
  success : bool;
  item_count : Z;
  error : string
}.
End BuildIndexResponse.

Module SimilarityRequest.
Record t : Type := mk {
  feature_vector : bytes;
  top_k : Z
}.
End SimilarityRequest.

Module SimilarityMatch.
Record t : Type := mk {
  item_id : string;
  similarity : Q;
  distance : Q
}.
End SimilarityMatch.

Module SimilarityResponse.
Record t : Type := mk {
  matches : list SimilarityMatch.t
}.
End SimilarityResponse.

Section Service.

Variable hnsw_search : faiss.Index -> list Q -> nat -> list (Q * Z).
Variable str_exn : exn -> string.

(** Whether [np.array] refuses rows of different lengths (numpy from
    1.24 on raises ValueError) or packs them into a 1-D object array
    (earlier versions). *)
Variable ragged_raises : bool.

(** [np.array(vectors)] for a list of 1-D float arrays. *)
Definition np_array (vectors : list (list Q)) : result ndarray :=
  match vectors with
  | [] => Ok (Array1 [])
  | first :: others =>
      if forallb (fun v => (length v =? length first)%nat) others
      then Ok (Array2 (length first) vectors)
      else if ragged_raises then Raise ValueError
      else Ok (ArrayObj vectors)
  end.

(** [FindSimilar] (lines 113-138); the shared index is only read. *)
Definition FindSimilar (request : SimilarityRequest.t)
    (context : ServicerContext) (w : world)
  : SimilarityResponse.t * ServicerContext :=
  let body :=
    query_vector ← frombuffer (SimilarityRequest.feature_vector request);
    matches ← search hnsw_search (self w) (Array1 query_vector)
                     (SimilarityRequest.top_k request);
    Ok (SimilarityResponse.mk
          (map (fun m : string * Q * Q =>
                  let '(item_id, distance, similarity) := m in
                  SimilarityMatch.mk item_id similarity distance)
               matches))
  in
  match body with
  | Ok response => (response, context)
  | Raise e =>
      (SimilarityResponse.mk [],
       {| code := Some INTERNAL; details := Some (str_exn e) |})
  end.

(** [BuildIndex] (lines 140-165); the gRPC context is not touched. *)
Definition BuildIndex (request : BuildIndexRequest.t)
  : M BuildIndexResponse.t :=
  try_except
    (vectors ← lift (mapM (fun item => frombuffer (IndexItem.feature_vector item))
                          (BuildIndexRequest.items request));
     let item_ids := map IndexItem.item_id (BuildIndexRequest.items request) in
     matrix ← lift (np_array vectors);
     _ ← build matrix item_ids;
     ret (BuildIndexResponse.mk true (len item_ids) ""))
    (fun e => ret (BuildIndexResponse.mk false 0 (str_exn e))).

End Service.

(** A request used to run the model. *)
Definition sample_items : BuildIndexRequest.t :=
  BuildIndexRequest.mk
    [ IndexItem.mk "x" (Float32Buffer [1; 0]%Q);
      IndexItem.mk "y" (Float32Buffer [0; 1]%Q) ].

End SimilarityServer.

(** ** extractors.py

    The Essentia algorithms and the extractors built from them alone are
    parameters: [analyze_file] is modelled over what they return, and
    [_extract_highlevel_features] over the five measurements it takes. *)

Module Extractors.
Import Py Processors.

(** [min(a, b)] and [max(a, b)] of Python: the first argument unless the
    second is smaller, respectively larger. *)
Definition py_min (a b : Q) : Q := if Qltb b a then b else a.
Definition py_max (a b : Q) : Q := if Qltb a b then b else a.

(** [features.update(new)]: the keys of [new] replace those of
    [features]. *)
Definition update (features new : gmap string value) : gmap string value :=
  new ∪ features.

Section Analyzer.

Variable audio : Type.

(** [_load_audio] (lines 66-69) and the extractors of lines 71-178. *)
Variable _load_audio : string -> result audio.
Variable _extract_basic_features : audio -> result (gmap string value).
Variable _extract_rhythm_features : audio -> result (gmap string value).
Variable _extract_tonal_features : audio -> result (gmap string value).
Variable _extract_spectral_features : audio -> result (gmap string value).

(** The Essentia algorithms of [_extract_highlevel_features]. *)
Variable Energy : audio -> result Q.
Variable Centroid : audio -> result Q.
Variable ZeroCrossingRate : audio -> result Q.
Variable HFC : audio -> result Q.
Variable RollOff : audio -> result Q.

(** [_extract_highlevel_features] (lines 180-210). *)
Definition _extract_highlevel_features (a : audio)
  : result (gmap string value) :=
  energy ← Energy a;
  centroid ← Centroid a;
  let valence := ((centroid / 22050) * energy)%Q in
  let features := <[ "valence"%string := VFloat (py_min 1 valence) ]> ∅ in
  zcr ← ZeroCrossingRate a;
  let acousticness := (1 - (zcr / (1 # 2)))%Q in
  let features :=
    <[ "acousticness"%string := VFloat (py_max 0 (py_min 1 acousticness)) ]>
      features in
  hfc ← HFC a;
  let instrumentalness := py_min 1 (hfc / 1000)%Q in
  let features :=
    <[ "instrumentalness"%string := VFloat instrumentalness ]> features in
  rolloff ← RollOff a;
  let speechiness := ((zcr * 2) * (1 - rolloff / 22050))%Q in
  let features :=
    <[ "speechiness"%string := VFloat (py_max 0 (py_min 1 speechiness)) ]>
      features in
  Ok features.

(** The features collected for a depth (lines 41-54). *)
Definition extract_for_depth (depth : string) (a : audio)
  : result (gmap string value) :=
  let features := (∅ : gmap string value) in
  if String.eqb depth "lightweight" then
    basic ← _extract_basic_features a;
    Ok (update features basic)
  else if String.eqb depth "standard" then
    basic ← _extract_basic_features a;
    let features := update features basic in
    rhythm ← _extract_rhythm_features a;
    let features := update features rhythm in
    tonal ← _extract_tonal_features a;
    Ok (update features tonal)
  else
    basic ← _extract_basic_features a;
    let features := update features basic in
    rhythm ← _extract_rhythm_features a;
    let features := update features rhythm in
    tonal ← _extract_tonal_features a;
    let features := update features tonal in
    spectral ← _extract_spectral_features a;
    let features := update features spectral in
    highlevel ← _extract_highlevel_features a;
    Ok (update features highlevel).

(** [analyze_file] (lines 23-64); the except clause logs and re-raises. *)
Definition analyze_file (file_path depth : string) (descriptors : list string)
  : result (gmap string value) :=
  a ← _load_audio file_path;
  features ← extract_for_depth depth a;
  match descriptors with
  | [] => Ok features
  | _ => Ok (filter (fun kv => kv.1 ∈ descriptors) features)
  end.

End Analyzer.

(** An analyzer used to run the model: five measurements per file name,
    no file fails to load, and extractors that report them unchanged. *)
Definition sample_measure (q : Q) (a : string) : result Q := Ok q.

Definition sample_extractor (key : string) (q : Q) (a : string)
  : result (gmap string value) := Ok {[ key := VFloat q ]}.

Definition sample_analyze_file : string -> string -> list string
    -> result (gmap string value) :=
  analyze_file string (fun path => Ok path)
    (sample_extractor "energy" (3 # 4))
    (sample_extractor "tempo" 130)
    (sample_extractor "key_strength" (4 # 5))
    (sample_extractor "spectral_centroid" 2500)
    (sample_measure (3 # 4)) (sample_measure 2500)
    (sample_measure (1 # 10)) (sample_measure 1500) (sample_measure 5000).

End Extractors.

(** ** Files of a batch that fail *)

Module Batch.
Import Py Processors Server.

Section Service.

Variable sqrt : Q -> Q.
Variable analyze_file : string -> string -> list string -> result (gmap string value).

(** Whether the try block of [AnalyzeTrack] raises for [path] inside the
    batch [request]: in [analyze_file] or in [create_feature_vector]. *)
Definition track_raises (request : BatchAnalysisRequest.t) (path : string)
  : bool :=
  negb (is_ok (features ← analyze_file path
                             (BatchAnalysisRequest.depth request)
                             (BatchAnalysisRequest.descriptors request);
               create_feature_vector sqrt features)).

End Service.

End Batch.

(** ** Sequences of mutating calls

    A caller that goes on after a call has raised, as the handlers of
    [server.py] do: whatever the call left of the instance and the files
    is what the next call finds. *)

Module Calls.
Import Py Client.

Inductive call : Type :=
| Build (vectors : ndarray) (ids : list string)
| AddItems (vectors : ndarray) (ids : list string).

Definition do_call (c : call) : M unit :=
  match c with
  | Build vectors ids => build vectors ids
  | AddItems vectors ids => add_items vectors ids
  end.

Definition do_calls (calls : list call) (w : world) : world :=
  fold_left (fun w c => snd (do_call c w)) calls w.

(** The call passes as many ids as vectors; [build] checks it by itself. *)
Definition counts_match (c : call) : Prop :=
  match c with
  | Build _ _ => True
  | AddItems vectors ids => ndarray_len vectors = length ids
  end.

(** Every call of the sequence returns, each one run on what the calls
    before it left. *)
Fixpoint calls_return (calls : list call) (w : world) : Prop :=
  match calls with
  | [] => True
  | c :: calls' =>
      fst (do_call c w) = Ok tt /\ calls_return calls' (snd (do_call c w))
  end.

End Calls.

(** * Properties *)

(** ** Facts about the runtime *)

Module PyFacts.
Import Py.

Lemma Qltb_lt x y : Qltb x y = true <-> (x < y)%Q.
Proof.
  unfold Qltb. rewrite negb_true_iff. split.
  - intros H. apply Qnot_le_lt. intros Hle.
    apply Qle_bool_iff in Hle. congruence.
  - intros H. destruct (Qle_bool y x) eqn:E; [|reflexivity].
    apply Qle_bool_iff in E. exfalso. exact (Qlt_not_le _ _ H E).
Qed.

Lemma Qltb_ge x y : Qltb x y = false <-> (y <= x)%Q.
Proof.
  unfold Qltb. rewrite negb_false_iff. apply Qle_bool_iff.
Qed.

Lemma mapM_length {A B} (f : A -> result B) xs ys :
  mapM f xs = Ok ys -> length ys = length xs.
Proof.
  revert ys. induction xs as [|x xs IH]; intros ys; simpl.
  - intros [= <-]. reflexivity.
  - destruct (f x) as [y|e]; simpl; [|discriminate].
    destruct (mapM f xs) as [ys'|e]; simpl; [|discriminate].
    intros [= <-]. simpl. f_equal. apply IH. reflexivity.
Qed.

Lemma mapM_raise_here {A B} (f : A -> result B) pre x post e :
  (forall a, a ∈ pre -> is_ok (f a) = true) ->
  f x = Raise e ->
  mapM f (pre ++ x :: post) = Raise e.
Proof.
  intros Hpre Hx. induction pre as [|p pre IH]; simpl.
  - rewrite Hx. reflexivity.
  - assert (Hp : is_ok (f p) = true) by (apply Hpre; left).
    destruct (f p) as [y|]; [|discriminate]. simpl.
    rewrite IH; [reflexivity|].
    intros a Ha. apply Hpre. right. exact Ha.
Qed.

End PyFacts.

(** ** The feature vector *)

Module ProcessorsProps.
Import Py Processors PyFacts.

(** A string that passes the guard of line 45 holds digits and dots only,
    which is the alphabet [float_of_str] is defined on. *)
Lemma guard_alphabet (s : string) :
  isdigit (remove_dots s) = true ->
  forall c, In c (list_ascii_of_string s) -> is_digit c = true \/ is_dot c = true.
Proof.
  intros H.
  assert (Hall : all_digits (remove_dots s) = true).
  { unfold isdigit in H. destruct (remove_dots s); [discriminate|exact H]. }
  clear H. induction s as [|a s IH]; simpl in *; [tauto|].
  intros c [<-|Hc].
  - destruct (is_dot a) eqn:Ed; [right; reflexivity|].
    simpl in Hall. apply andb_true_iff in Hall as [Ha _]. left. exact Ha.
  - apply IH; [|exact Hc].
    destruct (is_dot a); [exact Hall|].
    simpl in Hall. apply andb_true_iff in Hall as [_ Hs]. exact Hs.
Qed.

(** Whenever the loop finishes, it has produced one number per name of
    [feature_order]. *)
Lemma vector_values_length features v :
  vector_values features = Ok v -> length v = 16%nat.
Proof.
  intros H. apply mapM_length in H. exact H.
Qed.

Lemma normalize_tempo_length v : length (normalize_tempo v) = length v.
Proof. destruct v; reflexivity. Qed.

Lemma clip01_bounds x : (0 <= clip01 x <= 1)%Q.
Proof.
  unfold clip01.
  destruct (Qltb x 0) eqn:E0; [split; [apply Qle_refl|discriminate]|].
  destruct (Qltb 1 x) eqn:E1; [split; [discriminate|apply Qle_refl]|].
  apply Qltb_ge in E0. apply Qltb_ge in E1. split; assumption.
Qed.

Section WithSqrt.
Variable sqrt : Q -> Q.

Lemma _normalize_vector_length v :
  length (_normalize_vector sqrt v) = length v.
Proof.
  unfold _normalize_vector.
  destruct (Qltb 0 _); rewrite ?length_map; apply normalize_tempo_length.
Qed.

Lemma create_feature_vector_length features v :
  create_feature_vector sqrt features = Ok v -> length v = 16%nat.
Proof.
  unfold create_feature_vector.
  destruct (vector_values features) as [raw|e] eqn:E; simpl; [|discriminate].
  intros [= <-]. rewrite _normalize_vector_length.
  exact (vector_values_length _ _ E).
Qed.

(** The call returns a vector when every turn of the loop does. *)
Lemma create_feature_vector_returns features :
  (forall name, name ∈ feature_order ->
                is_ok (feature_value features name) = true) ->
  exists v, create_feature_vector sqrt features = Ok v /\ length v = 16%nat.
Proof.
  intros Hall.
  assert (Hraw : exists raw, vector_values features = Ok raw).
  { unfold vector_values. induction feature_order as [|n names IH]; simpl.
    - eauto.
    - assert (Hn : is_ok (feature_value features n) = true)
        by (apply Hall; left).
      destruct (feature_value features n) as [x|]; [|discriminate]. simpl.
      destruct IH as [raw Hraw].
      + intros m Hm. apply Hall. right. exact Hm.
      + rewrite Hraw. simpl. eauto. }
  destruct Hraw as [raw Hraw].
  exists (_normalize_vector sqrt raw). split.
  - unfold create_feature_vector. rewrite Hraw. reflexivity.
  - rewrite _normalize_vector_length. exact (vector_values_length _ _ Hraw).
Qed.

(** A string value with two dots under a feature name makes the whole
    call raise, whatever the other entries are, as long as the names
    before it in [feature_order] are read without error. *)
Lemma create_feature_vector_raises_at features pre name post s :
  feature_order = pre ++ name :: post ->
  (forall n, n ∈ pre -> is_ok (feature_value features n) = true) ->
  features !! name = Some (VStr s) ->
  isdigit (remove_dots s) = true ->
  float_of_str s = Raise ValueError ->
  create_feature_vector sqrt features = Raise ValueError.
Proof.
  intros Hord Hpre Hlook Hguard Hfloat.
  unfold create_feature_vector, vector_values. rewrite Hord.
  rewrite (mapM_raise_here _ pre name post ValueError); [reflexivity|exact Hpre|].
  unfold feature_value. rewrite Hlook, Hguard. exact Hfloat.
Qed.

End WithSqrt.

(** The only ways one turn of the loop can raise: an int too large for
    a float, or a string that passes the guard and is not a decimal
    literal. *)
Lemma feature_value_raises features name e :
  feature_value features name = Raise e ->
  (exists z, features !! name = Some (VInt z) /\ e = OverflowError /\
             (2 ^ 1024 - 2 ^ 970 <= Z.abs z)%Z) \/
  (exists s, features !! name = Some (VStr s) /\ e = ValueError /\
             isdigit (remove_dots s) = true /\ float_of_str s = Raise ValueError).
Proof.
  unfold feature_value.
  destruct (features !! name) as [[z|q|s|]|]; try discriminate.
  - unfold float_of_int.
    destruct (Z.ltb_spec (Z.abs z) (2 ^ 1024 - 2 ^ 970)) as [_|Hbig];
      [discriminate|].
    intros [= <-]. left. exists z. auto.
  - destruct (isdigit (remove_dots s)) eqn:Hguard; [|discriminate].
    intros Hf. right. exists s.
    assert (He : e = ValueError).
    { unfold float_of_str in Hf.
      destruct (split_dot s) as [ip [fp|]].
      - destruct (_ && _); [discriminate|]. congruence.
      - destruct (isdigit ip); [discriminate|]. congruence. }
    subst e. auto.
Qed.

(** C3 (the code breaks it): [create_feature_vector] is not total.  The
    descriptor set that maps "energy" to the string "1.2.3" passes the
    guard of line 45 ("123" is all digits) and [float("1.2.3")] raises
    ValueError, which nothing catches. *)
Theorem create_feature_vector_raises_on_two_dots :
  forall sqrt : Q -> Q,
    isdigit (remove_dots "1.2.3") = true /\
    create_feature_vector sqrt {[ "energy"%string := VStr "1.2.3" ]}
      = Raise ValueError.
Proof.
  intros sqrt. split; [reflexivity|].
  apply (create_feature_vector_raises_at sqrt _ ["tempo"%string] "energy"%string
           (List.tl (List.tl feature_order)) "1.2.3"%string).
  - reflexivity.
  - intros n Hn. apply list_elem_of_In in Hn. destruct Hn as [<-|[]]. reflexivity.
  - reflexivity.
  - reflexivity.
  - reflexivity.
Qed.

(** C6: the tempo slot before clipping.  For a raw vector [t :: rest] the
    first component after line 68 is [(t - 60) / 140] when [t > 0] and
    exactly [0] when [t <= 0]; the other components are untouched; raw
    tempo 200 gives 1. *)
Theorem tempo_component_pre_clip (t : Q) (rest : list Q) :
  (exists x, normalize_tempo (t :: rest) = x :: rest /\
     ((0 < t)%Q -> x = ((t - 60) / 140)%Q) /\
     ((t <= 0)%Q -> x = 0%Q)) /\
  (t == 200 -> exists x, normalize_tempo (t :: rest) = x :: rest /\ x == 1)%Q.
Proof.
  split.
  - exists (tempo_component t). split; [reflexivity|]. unfold tempo_component. split.
    + intros Hpos. apply Qltb_lt in Hpos. rewrite Hpos. reflexivity.
    + intros Hneg. apply Qltb_ge in Hneg. rewrite Hneg. reflexivity.
  - intros H200. exists (tempo_component t). split; [reflexivity|].
    unfold tempo_component.
    assert (Hpos : (0 < t)%Q) by (rewrite H200; reflexivity).
    apply Qltb_lt in Hpos. rewrite Hpos. rewrite H200. reflexivity.
Qed.

Lemma tempo_component_pre_clip_witness :
  (exists x, normalize_tempo [200; 1 # 2] = [x; 1 # 2] /\ x == 1)%Q /\
  (exists x, normalize_tempo [- (5); 1 # 2] = [x; 1 # 2] /\ x = 0)%Q.
Proof.
  split.
  - destruct (tempo_component_pre_clip 200 [1 # 2]%Q) as [_ H].
    apply H. reflexivity.
  - destruct (tempo_component_pre_clip (- (5)) [1 # 2]%Q) as [[x [Hx [_ H0]]] _].
    exists x. split; [exact Hx|]. apply H0. discriminate.
Defined.

End ProcessorsProps.

(** ** The similarity index *)

Module ClientProps.
Import Py Client PyFacts.

Ltac run_method :=
  unfold mbind, M_bind, seq, lift, modify, get, raise, ret, try_except; simpl.

Lemma two_items_built : built_with (self two_items) 2.
Proof.
  eexists. split; [reflexivity|]. split; reflexivity.
Qed.

(** A successful [build] of a matrix with [d] columns leaves an index
    built with dimension [d]. *)
Lemma build_establishes_dimension (w : world) (d : nat)
    (rows : list (list Q)) (ids : list string) :
  fst (build (Array2 d rows) ids w) = Ok tt ->
  built_with (self (snd (build (Array2 d rows) ids w))) d.
Proof.
  unfold build. simpl.
  destruct (length rows =? length ids)%nat; simpl; [|discriminate].
  run_method. rewrite Nat.eqb_refl. simpl. intros _.
  eexists. split; [reflexivity|]. split; reflexivity.
Qed.

(** *** Failed calls *)

(** C1: on an index built with dimension [D], [add_items] with vectors of
    another dimension raises (the AssertionError of the FAISS wrapper,
    which is the DimensionMismatchError of the specification) before
    anything is changed: the instance (id list, stored vectors,
    dimension) and the files are those before the call. *)
Theorem add_items_dimension_mismatch
    (w : world) (D dx : nat) (rows : list (list Q)) (ids : list string) :
  built_with (self w) D ->
  dx <> D ->
  add_items (Array2 dx rows) ids w = (Raise AssertionError, w).
Proof.
  intros (ix & Hix & Hd & _) Hne.
  unfold add_items. run_method. rewrite Hix. run_method.
  rewrite Hd. destruct (Nat.eqb_spec dx D) as [->|_]; [contradiction|].
  reflexivity.
Qed.

(** The same holds for vectors that are not a 2-D array at all (one flat
    vector, rows of different lengths): the FAISS wrapper cannot unpack
    their shape and raises ValueError. *)
Lemma add_items_not_a_matrix
    (w : world) (D : nat) (vectors : ndarray) (ids : list string) :
  built_with (self w) D ->
  ndim vectors <> 2%nat ->
  add_items vectors ids w = (Raise ValueError, w).
Proof.
  intros (ix & Hix & _) Hnd.
  unfold add_items. run_method. rewrite Hix. run_method.
  destruct vectors as [xs|d rows|rows]; simpl in *; try reflexivity.
  contradiction Hnd. reflexivity.
Qed.

Lemma add_items_dimension_mismatch_witness :
  built_with (self two_items) 2 /\
  add_items (Array2 3 [[1; 1; 1]]%Q) ["x"]%string two_items
    = (Raise AssertionError, two_items).
Proof.
  split; [exact two_items_built|].
  apply (add_items_dimension_mismatch two_items 2 3).
  - exact two_items_built.
  - lia.
Defined.

Lemma wf_shares_or_ragged (vectors : ndarray) :
  wf_ndarray vectors ->
  ~ share_one_dimension vectors ->
  exists rows, vectors = ArrayObj rows.
Proof.
  intros Hwf Hns. destruct vectors as [xs|d rows|rows].
  - exfalso. apply Hns. exists 0%nat. simpl.
    apply Forall_forall. intros r Hr. apply list_elem_of_In in Hr.
    apply in_map_iff in Hr as (x & <- & _). reflexivity.
  - exfalso. apply Hns. exists d. exact Hwf.
  - exists rows. reflexivity.
Qed.

(** C5 as stated fails: ValueError, the exception [build] raises to
    reject its arguments (line 36), is not what it raises for vectors
    that do not share one dimension.  Two rows of one and two components
    with two ids get past line 36 and make [vectors.shape[1]] raise
    IndexError. *)
Lemma build_ragged_is_not_rejected_by_validation :
  ~ (forall (w : world) (vectors : ndarray) (ids : list string),
       wf_ndarray vectors ->
       ndarray_len vectors <> length ids \/ ~ share_one_dimension vectors ->
       build vectors ids w = (Raise ValueError, w)).
Proof.
  intros Hall.
  specialize (Hall two_items (ArrayObj [[1]; [1; 2]]%Q) ["x"; "y"]%string).
  assert (Hrun : build (ArrayObj [[1]; [1; 2]]%Q) ["x"; "y"]%string two_items
                 = (Raise IndexError, two_items)) by reflexivity.
  rewrite Hrun in Hall.
  assert (Habs : (Raise IndexError : result unit, two_items)
                 = (Raise ValueError, two_items)).
  { apply Hall.
    - exists [1%Q], [1%Q; 2%Q]. simpl.
      split; [left|]. split; [right; left|]. lia.
    - right. intros [D HD]. simpl in HD.
      apply Forall_cons in HD as [H1 HD].
      apply Forall_cons in HD as [H2 _]. simpl in H1, H2. lia. }
  discriminate Habs.
Qed.

(** C5 as the code has it: [build] with a vector count different from
    the id count raises ValueError; [build] has no check of the
    dimensions, and vectors that do not share one dimension (not a 2-D
    array) whose count equals the id count make [vectors.shape[1]] raise
    IndexError.  Either way the instance and the files are exactly those
    before the call. *)
Theorem build_rejects_bad_shapes
    (w : world) (vectors : ndarray) (ids : list string) :
  wf_ndarray vectors ->
  ndarray_len vectors <> length ids \/ ~ share_one_dimension vectors ->
  exists e, build vectors ids w = (Raise e, w) /\
            (ndarray_len vectors <> length ids -> e = ValueError) /\
            (ndarray_len vectors = length ids -> e = IndexError).
Proof.
  intros Hwf Hbad. unfold build.
  destruct (Nat.eqb_spec (ndarray_len vectors) (length ids)) as [Heq|Hne]; simpl.
  - destruct Hbad as [Hne|Hns]; [contradiction|].
    destruct (wf_shares_or_ragged _ Hwf Hns) as [rows ->].
    exists IndexError. run_method. split; [reflexivity|].
    split; [intros Hne; contradiction|reflexivity].
  - exists ValueError. split; [reflexivity|].
    split; [reflexivity|intros Heq; contradiction].
Qed.

Lemma build_rejects_bad_shapes_witness :
  (exists e, build (Array2 2 [[1; 0]]%Q) ["x"; "y"]%string two_items
             = (Raise e, two_items) /\ e = ValueError) /\
  (exists e, build (ArrayObj [[1]; [1; 2]]%Q) ["x"; "y"]%string two_items
             = (Raise e, two_items) /\ e = IndexError).
Proof.
  split.
  - destruct (build_rejects_bad_shapes two_items (Array2 2 [[1; 0]]%Q)
                ["x"; "y"]%string) as (e & He & Hv & _).
    + repeat constructor.
    + left. simpl. lia.
    + exists e. split; [exact He|]. apply Hv. simpl. lia.
  - destruct (build_rejects_bad_shapes two_items (ArrayObj [[1]; [1; 2]]%Q)
                ["x"; "y"]%string) as (e & He & _ & Hi).
    + exists [1%Q], [1%Q; 2%Q]. simpl.
      split; [left|]. split; [right; left|]. lia.
    + right. intros [D HD]. simpl in HD.
      apply Forall_cons in HD as [H1 HD].
      apply Forall_cons in HD as [H2 _]. simpl in H1, H2. lia.
    + exists e. split; [exact He|]. apply Hi. reflexivity.
Defined.

(** *** Persistence *)

Lemma path_join_inj (root a b : string) :
  path_join root a = path_join root b -> a = b.
Proof.
  unfold path_join.
  destruct (String.eqb root ""); [tauto|].
  destruct (ends_with_slash root).
  - induction root as [|c root IH]; simpl; [tauto|].
    intros [= H]. apply IH. exact H.
  - induction root as [|c root IH]; simpl.
    + intros [= H]. exact H.
    + intros [= H]. apply IH. exact H.
Qed.

Lemma artifacts_differ (w : world) : index_file w <> metadata_file w.
Proof.
  unfold index_file, metadata_file. intros H.
  apply path_join_inj in H. discriminate.
Qed.

(** Constructing an instance never raises, whatever the files hold. *)
Lemma init_returns (index_path : option string)
    (environ : gmap string string) (disk : gmap string file) :
  fst (__init__ index_path environ disk) = Ok tt.
Proof.
  unfold __init__, _load_index. run_method.
  destruct (exists_file _ _ && exists_file _ _); [|reflexivity].
  destruct (read_index _) as [ix|e]; simpl; [|reflexivity].
  destruct (pickle_load _) as [o|e]; simpl; [|reflexivity].
  destruct (metadata_item_ids o) as [ids|e]; simpl; [|reflexivity].
  destruct (metadata_dimension o) as [dim|e]; reflexivity.
Qed.

(** When either artifact is missing, or [faiss.read_index] or
    [pickle.load] fails on it, the instance is uninitialized (no ANN
    structure, empty id list, unset dimension). *)
Lemma load_missing_or_unreadable
    (index_path : option string) (environ : gmap string string)
    (disk : gmap string file) :
  let path := resolve_index_path index_path environ in
  disk !! path_join path "faiss.index" = None \/
  disk !! path_join path "metadata.pkl" = None \/
  is_ok (read_index (disk !! path_join path "faiss.index")) = false \/
  is_ok (pickle_load (disk !! path_join path "metadata.pkl")) = false ->
  __init__ index_path environ disk
    = (Ok tt, {| self := new_instance path; fs := disk |}) /\
  uninitialized (self (snd (__init__ index_path environ disk))).
Proof.
  intros path Hbad.
  assert (Hrun : __init__ index_path environ disk
                 = (Ok tt, {| self := new_instance path; fs := disk |})).
  { unfold __init__, _load_index. fold path. run_method.
    unfold exists_file, index_file, metadata_file. simpl.
    destruct (disk !! path_join path "faiss.index") as [fi|] eqn:Ei;
      [|reflexivity].
    destruct (disk !! path_join path "metadata.pkl") as [fm|] eqn:Em;
      [|reflexivity].
    simpl.
    destruct Hbad as [H|[H|[H|H]]]; try discriminate.
    - destruct fi as [ix| |]; simpl in H; try discriminate; reflexivity.
    - destruct fi as [ix| |]; simpl; try reflexivity.
      destruct fm as [o| |]; simpl in H; try discriminate; reflexivity. }
  split; [exact Hrun|]. rewrite Hrun. repeat split.
Qed.

(** So is it when the pickle holds something else than a dictionary with
    the key 'item_ids'. *)
Lemma load_without_item_ids
    (index_path : option string) (environ : gmap string string)
    (disk : gmap string file) (o : pyobj) :
  let path := resolve_index_path index_path environ in
  disk !! path_join path "metadata.pkl" = Some (PickleFile o) ->
  is_ok (metadata_item_ids o) = false ->
  uninitialized (self (snd (__init__ index_path environ disk))).
Proof.
  intros path Hm Hids.
  unfold __init__, _load_index. fold path. run_method.
  unfold exists_file, index_file, metadata_file. simpl. fold path.
  rewrite Hm.
  destruct (disk !! path_join path "faiss.index") as [[ix| |]|] eqn:Ei;
    simpl; try (repeat split; fail).
  destruct (metadata_item_ids o); [discriminate|]. repeat split.
Qed.

(** C8 (the code breaks it): the except clause of [_load_index] resets
    [self.index] only.  With a readable index file and a metadata pickle
    that holds the key 'item_ids' but not the key 'dimension', line 134
    has stored the id list when line 135 raises KeyError: the instance is
    left with the ids of the metadata and no ANN structure, which is not
    the uninitialized state. *)
Theorem load_keeps_ids_of_partial_metadata :
  let metadata := PyDict (Some ["a"; "b"]%string) None in
  let disk := <[ "/data/index/metadata.pkl"%string := PickleFile metadata ]>
                (fs two_items) in
  let loaded := self (snd (__init__ None ∅ disk)) in
  is_ok (read_index (disk !! "/data/index/faiss.index"%string)) = true /\
  metadata_dimension metadata = Raise KeyError /\
  fst (__init__ None ∅ disk) = Ok tt /\
  index loaded = None /\
  item_ids loaded = ["a"; "b"]%string /\
  dimension loaded = None /\
  ~ uninitialized loaded.
Proof.
  repeat (split; [reflexivity|]).
  intros (_ & Hids & _). vm_compute in Hids. discriminate Hids.
Qed.

Lemma save_index_built (w : world) (ix : faiss.Index) :
  index (self w) = Some ix ->
  _save_index w =
    (Ok tt,
     write_file (metadata_file w)
       (PickleFile (PyDict (Some (item_ids (self w)))
                           (Some (dimension (self w)))))
       (write_file (index_file w) (FaissFile ix) w)).
Proof.
  intros Hix. unfold _save_index, save_faiss_file, save_metadata_file.
  run_method. rewrite Hix. reflexivity.
Qed.

Lemma load_saved (s : SimilarityIndex) (disk : gmap string file)
    (ix : faiss.Index) (ids : list string) (dim : option nat) :
  disk !! path_join (index_path s) "faiss.index" = Some (FaissFile ix) ->
  disk !! path_join (index_path s) "metadata.pkl"
    = Some (PickleFile (PyDict (Some ids) (Some dim))) ->
  _load_index {| self := s; fs := disk |} =
    (Ok tt,
     {| self := {| index_path := index_path s; index := Some ix;
                   item_ids := ids; dimension := dim |};
        fs := disk |}).
Proof.
  intros Hi Hm. unfold _load_index. run_method.
  unfold exists_file, index_file, metadata_file. simpl.
  rewrite Hi, Hm. simpl. reflexivity.
Qed.

Section RoundTrip.
Variable hnsw_search : faiss.Index -> list Q -> nat -> list (Q * Z).

(** C7: when saving a built index returns, constructing a fresh instance
    over the same storage root gives an instance with the same id list,
    the same dimension and the same ANN structure, so that [search]
    returns the same results for every query and [k]; the save leaves the
    saving instance as it was. *)
Theorem save_reload_roundtrip (w saved : world) (ix : faiss.Index)
    (root : option string) (environ : gmap string string) :
  index (self w) = Some ix ->
  resolve_index_path root environ = index_path (self w) ->
  _save_index w = (Ok tt, saved) ->
  exists fresh,
    self saved = self w /\
    __init__ root environ (fs saved) = (Ok tt, fresh) /\
    item_ids (self fresh) = item_ids (self w) /\
    dimension (self fresh) = dimension (self w) /\
    index (self fresh) = index (self w) /\
    forall query k,
      search hnsw_search (self fresh) query k
      = search hnsw_search (self w) query k.
Proof.
  intros Hix Hroot Hsave. rewrite (save_index_built w ix Hix) in Hsave.
  injection Hsave as <-.
  eexists. split; [reflexivity|].
  unfold __init__. rewrite Hroot.
  rewrite (load_saved _ _ ix (item_ids (self w)) (dimension (self w))).
  - split; [reflexivity|]. simpl. rewrite Hix.
    repeat (split; [reflexivity|]). intros query k.
    unfold search. simpl. rewrite Hix. reflexivity.
  - simpl. rewrite lookup_insert_ne.
    + apply lookup_insert_eq.
    + intros H. symmetry in H. exact (artifacts_differ w H).
  - simpl. apply lookup_insert_eq.
Qed.

End RoundTrip.

Lemma save_reload_roundtrip_witness :
  fs unsaved_items = ∅ /\
  exists fresh,
    __init__ (Some "/data/index"%string) ∅
      (fs (snd (_save_index unsaved_items))) = (Ok tt, fresh) /\
    item_ids (self fresh) = ["a"; "b"]%string /\
    dimension (self fresh) = Some 2%nat /\
    search exact_search (self fresh) (Array1 [1; 0]%Q) 2
    = search exact_search (self unsaved_items) (Array1 [1; 0]%Q) 2.
Proof.
  split; [reflexivity|].
  destruct (save_reload_roundtrip exact_search unsaved_items
              (snd (_save_index unsaved_items))
              (faiss.mkIndex 2 32 40 [[1; 0]; [0; 1]]%Q)
              (Some "/data/index"%string) ∅ eq_refl eq_refl eq_refl)
    as (fresh & _ & Hl & Hids & Hdim & _ & Hq).
  exists fresh. split; [exact Hl|].
  split; [rewrite Hids; reflexivity|]. split; [rewrite Hdim; reflexivity|].
  apply Hq.
Defined.

(** *** Alignment of the id list with the ANN structure *)

Lemma build_aligned (w : world) (vectors : ndarray) (ids : list string) :
  fst (build vectors ids w) = Ok tt ->
  aligned (self (snd (build vectors ids w))).
Proof.
  unfold build.
  destruct (Nat.eqb_spec (ndarray_len vectors) (length ids)) as [Heq|Hne];
    simpl; [|discriminate].
  destruct vectors as [xs|d rows|rows]; run_method; try discriminate.
  rewrite Nat.eqb_refl. simpl. intros _.
  unfold aligned, ann_size, faiss.ntotal. simpl. symmetry. exact Heq.
Qed.

Lemma add_items_aligned (w : world) (vectors : ndarray) (ids : list string) :
  aligned (self w) ->
  ndarray_len vectors = length ids ->
  fst (add_items vectors ids w) = Ok tt ->
  aligned (self (snd (add_items vectors ids w))).
Proof.
  intros Hal Hlen. unfold add_items. run_method.
  destruct (index (self w)) as [ix|] eqn:Hix; [|apply build_aligned].
  destruct vectors as [xs|d rows|rows]; run_method; try discriminate.
  destruct (d =? faiss.d ix)%nat; simpl; [|discriminate]. intros _.
  unfold aligned, ann_size in *. rewrite Hix in Hal.
  unfold faiss.ntotal in *. simpl in *.
  rewrite !length_app. lia.
Qed.

(** C4 (the code breaks it): [add_items] on a built index does not
    compare the number of vectors with the number of ids, as [build]
    does.  One vector given with two ids is accepted without raising and
    leaves four ids over three stored vectors. *)
Theorem add_items_breaks_alignment :
  aligned (self two_items) /\
  exists w',
    add_items (Array2 2 [[1; 1]]%Q) ["x"; "y"]%string two_items = (Ok tt, w') /\
    item_ids (self w') = ["a"; "b"; "x"; "y"]%string /\
    option_map faiss.ntotal (index (self w')) = Some 3%nat /\
    ~ aligned (self w').
Proof.
  split; [reflexivity|].
  exists (snd (add_items (Array2 2 [[1; 1]]%Q) ["x"; "y"]%string two_items)).
  split; [vm_compute; reflexivity|].
  split; [reflexivity|]. split; [reflexivity|].
  vm_compute. intros H. discriminate H.
Qed.

(** *** Search *)

Lemma getitem_not_found {A} (l : list A) (x : A) :
  last l = Some x -> getitem l faiss.not_found = Ok x.
Proof.
  intros Hlast. rewrite last_lookup in Hlast.
  assert (Hlen : (0 < length l)%nat).
  { destruct l; simpl in *; [discriminate|lia]. }
  unfold getitem, faiss.not_found, len. simpl.
  destruct (Z.ltb_spec (-1 + Z.of_nat (length l)) 0) as [Hneg|_]; [lia|].
  replace (Z.to_nat (-1 + Z.of_nat (length l))) with (pred (length l)) by lia.
  rewrite Hlast. reflexivity.
Qed.

(** A slot holding the not-found label passes the test of line 79 and is
    reported under the last item id. *)
Lemma search_results_not_found
    (ids : list string) (x : string) (distance : Q) (rest : list (Q * Z)) :
  last ids = Some x ->
  search_results ids ((distance, faiss.not_found) :: rest) =
    bind (search_results ids rest)
         (fun results => Ok ((x, distance, (1 / (1 + distance))%Q) :: results)).
Proof.
  intros Hlast. simpl.
  destruct (Z.ltb_spec faiss.not_found (len ids)) as [_|Hge].
  - rewrite (getitem_not_found _ _ Hlast). reflexivity.
  - unfold faiss.not_found, len in Hge. lia.
Qed.

(** A slot with an id inside the list is reported under the id stored
    at that position, and a slot with an id at or beyond its end is
    dropped. *)
Lemma search_results_in_range
    (ids : list string) (i : nat) (x : string) (distance : Q)
    (rest : list (Q * Z)) :
  ids !! i = Some x ->
  search_results ids ((distance, Z.of_nat i) :: rest) =
    bind (search_results ids rest)
         (fun results => Ok ((x, distance, (1 / (1 + distance))%Q) :: results)).
Proof.
  intros Hi. pose proof (lookup_lt_Some _ _ _ Hi) as Hlt. simpl.
  destruct (Z.ltb_spec (Z.of_nat i) (len ids)) as [_|Hge];
    [|unfold len in Hge; lia].
  unfold getitem.
  destruct (Z.ltb_spec (Z.of_nat i) 0) as [Hneg|_]; [lia|].
  destruct (Z.ltb_spec (Z.of_nat i) 0) as [Hneg|_]; [lia|].
  rewrite Nat2Z.id, Hi. reflexivity.
Qed.

Lemma search_results_beyond
    (ids : list string) (idx : Z) (distance : Q) (rest : list (Q * Z)) :
  (len ids <= idx)%Z ->
  search_results ids ((distance, idx) :: rest) = search_results ids rest.
Proof.
  intros Hge. simpl.
  destruct (Z.ltb_spec idx (len ids)) as [Hlt|_]; [lia|]. reflexivity.
Qed.

(** C2 (the code breaks it): on the index of "a" and "b", a search for
    three neighbours gets the not-found label -1 in its third slot;
    [-1 < len(item_ids)] holds, so the slot is kept and reported as item
    "b" ([item_ids[-1]]).  On a built index without items the same slot
    makes [search] raise IndexError. *)
Theorem search_keeps_not_found_slot :
  exact_search (faiss.mkIndex 2 32 40 [[1; 0]; [0; 1]]%Q) [1; 0]%Q 3
    = [(0, 0%Z); (2, 1%Z); (faiss.FLT_MAX, faiss.not_found)]%Q /\
  search exact_search (self two_items) (Array1 [1; 0]%Q) 3
    = Ok [("a"%string, 0, 1 / (1 + 0));
          ("b"%string, 2, 1 / (1 + 2));
          ("b"%string, faiss.FLT_MAX, 1 / (1 + faiss.FLT_MAX))]%Q /\
  search exact_search (self no_items) (Array1 [1; 0]%Q) 1 = Raise IndexError.
Proof.
  split; [reflexivity|]. split; reflexivity.
Qed.

End ClientProps.

(** ** The analysis service *)

Module ServerProps.
Import Py Processors Server.

Section Service.

Variable sqrt : Q -> Q.
Variable analyze_file : string -> string -> list string -> result (gmap string value).
Variable str_value : value -> string.
Variable str_exn : exn -> string.

Local Abbreviation AnalyzeTrack :=
  (AnalyzeTrack sqrt analyze_file str_value str_exn).
Local Abbreviation batch_loop :=
  (batch_loop sqrt analyze_file str_value str_exn).
Local Abbreviation AnalyzeBatch :=
  (AnalyzeBatch sqrt analyze_file str_value str_exn).

(** The handler of one track catches what the analysis raises and
    returns a response. *)
Lemma AnalyzeTrack_returns request context :
  exists response context',
    AnalyzeTrack request context = (Ok response, context').
Proof.
  unfold Server.AnalyzeTrack.
  destruct (analyze_file _ _ _) as [features|e]; simpl; [|eauto].
  destruct (create_feature_vector sqrt features) as [v|e]; simpl; eauto.
Qed.

Lemma batch_loop_records request total completed errors todo context :
  let records := fst (batch_loop request total completed errors todo context) in
  length records = length todo /\
  forall (i : nat) (path : string),
    todo !! i = Some path ->
    records !! i =
      Some (AnalysisProgress.mk total (completed + Z.of_nat (i + 1)) errors path
              ((inject_Z (completed + Z.of_nat (i + 1)) / inject_Z total) * 100)%Q).
Proof.
  revert completed context.
  induction todo as [|file_path todo IH]; intros completed context; simpl.
  - split; [reflexivity|]. intros i path H. destruct i; discriminate H.
  - destruct (AnalyzeTrack_returns
                (AnalysisRequest.mk file_path (BatchAnalysisRequest.depth request)
                   (BatchAnalysisRequest.descriptors request)) context)
      as (response & context' & Htrack).
    rewrite Htrack.
    specialize (IH (completed + 1)%Z context').
    destruct (batch_loop request total (completed + 1)%Z errors todo context')
      as [later context''] eqn:Hloop.
    simpl in *. destruct IH as [IHlen IHnth]. split; [f_equal; exact IHlen|].
    intros [|i] path Hpath; simpl in *.
    + injection Hpath as <-. reflexivity.
    + rewrite (IHnth i path Hpath).
      replace (completed + 1 + Z.of_nat (i + 1))%Z
        with (completed + Z.of_nat (S (i + 1)))%Z by lia.
      reflexivity.
Qed.

(** C10: for a batch of [n] paths, [AnalyzeBatch] yields [n] progress
    records; the record number [i + 1], yielded after the path number
    [i + 1], has total [n], completed [i + 1], errors 0, that path as
    current file and percent [(completed / total) * 100], whatever the
    analysis of the files does. *)
Theorem AnalyzeBatch_progress (request : BatchAnalysisRequest.t)
    (context : ServicerContext) :
  let paths := BatchAnalysisRequest.file_paths request in
  let records := fst (AnalyzeBatch request context) in
  length records = length paths /\
  forall (i : nat) (path : string),
    paths !! i = Some path ->
    exists progress,
      records !! i = Some progress /\
      AnalysisProgress.total progress = len paths /\
      AnalysisProgress.completed progress = Z.of_nat (i + 1) /\
      AnalysisProgress.errors progress = 0%Z /\
      AnalysisProgress.current_file progress = path /\
      AnalysisProgress.progress_percent progress =
        ((inject_Z (AnalysisProgress.completed progress)
          / inject_Z (AnalysisProgress.total progress)) * 100)%Q.
Proof.
  intros paths records.
  destruct (batch_loop_records request (len paths) 0 0 paths context)
    as [Hlen Hnth].
  split; [exact Hlen|].
  intros i path Hpath. eexists. split; [exact (Hnth i path Hpath)|].
  simpl. repeat split.
Qed.

End Service.

Lemma AnalyzeBatch_progress_witness :
  exists progress,
    fst (AnalyzeBatch (fun x => x) sample_analysis (fun _ => ""%string)
           (fun _ => "error"%string) sample_batch (mkContext None None))
      !! 1%nat = Some progress /\
    AnalysisProgress.total progress = 2%Z /\
    AnalysisProgress.completed progress = 2%Z /\
    AnalysisProgress.errors progress = 0%Z /\
    AnalysisProgress.current_file progress = "bad.mp3"%string.
Proof.
  destruct (AnalyzeBatch_progress (fun x => x) sample_analysis
              (fun _ => ""%string) (fun _ => "error"%string)
              sample_batch (mkContext None None)) as [_ Hnth].
  destruct (Hnth 1%nat "bad.mp3"%string eq_refl)
    as (progress & Hp & Ht & Hc & He & Hf & _).
  exists progress. repeat split; assumption.
Defined.

End ServerProps.

(** ** The index under concurrent callers *)

Module ThreadsProps.
Import Py Client Threads ClientProps.

(** What the overlapping schedule leaves: both calls have returned, the
    instance holds the ids of the second call over the vector of the
    first, and so do the files. *)
Lemma overlapping_builds_mix :
  exists c,
    run overlapping two_builders = Some c /\
    pool c = [Returned; Returned] /\
    item_ids (self (shared c)) = ["y"; "z"]%string /\
    option_map faiss.xb (index (self (shared c))) = Some [[1; 1]]%Q /\
    ~ aligned (self (shared c)) /\
    fs (shared c) !! "/data/index/metadata.pkl"%string
      = Some (PickleFile (PyDict (Some ["y"; "z"]%string) (Some (Some 2%nat)))) /\
    fs (shared c) !! "/data/index/faiss.index"%string
      = Some (FaissFile (faiss.mkIndex 2 32 40 [[1; 1]]%Q)).
Proof.
  destruct (run overlapping two_builders) as [c|] eqn:Hrun;
    [|vm_compute in Hrun; discriminate Hrun].
  exists c. split; [reflexivity|].
  vm_compute in Hrun. injection Hrun as <-.
  repeat (split; [reflexivity|]).
  split; [|split; reflexivity].
  vm_compute. intros H. discriminate H.
Qed.



Section Pool.
Variables before after : list thread.









End Pool.











End ThreadsProps.

(** * Further properties of the code *)

(** ** processors.py *)

Module ProcessorsMore.
Import Py Processors PyFacts ProcessorsProps.

Lemma mapM_ext {A B} (f g : A -> result B) (xs : list A) :
  (forall x, x ∈ xs -> f x = g x) -> mapM f xs = mapM g xs.
Proof.
  induction xs as [|x xs IH]; intros Hfg; simpl; [reflexivity|].
  rewrite (Hfg x) by left. rewrite IH; [reflexivity|].
  intros y Hy. apply Hfg. right. exact Hy.
Qed.

Lemma mapM_lookup {A B} (f : A -> result B) (xs : list A) (ys : list B)
    (i : nat) (x : A) :
  mapM f xs = Ok ys -> xs !! i = Some x ->
  exists y, ys !! i = Some y /\ f x = Ok y.
Proof.
  revert ys i. induction xs as [|a xs IH]; intros ys i; simpl.
  - intros _ H. destruct i; discriminate H.
  - destruct (f a) as [b|e] eqn:Hfa; simpl; [|discriminate].
    destruct (mapM f xs) as [bs|e] eqn:Hm; simpl; [|discriminate].
    intros [= <-]. destruct i as [|i]; simpl.
    + intros [= <-]. eauto.
    + intros Hi. apply (IH bs i eq_refl Hi).
Qed.

Lemma mapM_raise_elem {A B} (f : A -> result B) (xs : list A) (e : exn) :
  mapM f xs = Raise e -> exists x, x ∈ xs /\ f x = Raise e.
Proof.
  induction xs as [|a xs IH]; simpl; [discriminate|].
  destruct (f a) as [b|e'] eqn:Hfa; simpl.
  - destruct (mapM f xs) as [bs|e'] eqn:Hm; simpl; [discriminate|].
    intros [= ->]. destruct (IH eq_refl) as (x & Hx & Hfx).
    exists x. split; [right; exact Hx|exact Hfx].
  - intros [= ->]. exists a. split; [left|exact Hfa].
Qed.

Lemma mapM_Forall {A B} (f : A -> result B) (P : B -> Prop)
    (xs : list A) (ys : list B) :
  (forall x y, x ∈ xs -> f x = Ok y -> P y) ->
  mapM f xs = Ok ys -> Forall P ys.
Proof.
  revert ys. induction xs as [|a xs IH]; intros ys HP; simpl.
  - intros [= <-]. constructor.
  - destruct (f a) as [b|e] eqn:Hfa; simpl; [|discriminate].
    destruct (mapM f xs) as [bs|e] eqn:Hm; simpl; [|discriminate].
    intros [= <-]. constructor.
    + apply (HP a b); [left|exact Hfa].
    + apply IH; [|reflexivity]. intros x y Hx. apply HP. right. exact Hx.
Qed.

(** X1: the feature vector depends on the values under the sixteen names
    of [feature_order] only; any other key of the dictionary is ignored. *)
Theorem feature_vector_ignores_other_keys
    (sqrt : Q -> Q) (features features' : gmap string value) :
  (forall name, name ∈ feature_order -> features !! name = features' !! name) ->
  create_feature_vector sqrt features = create_feature_vector sqrt features'.
Proof.
  intros Hagree. unfold create_feature_vector, vector_values.
  rewrite (mapM_ext (feature_value features) (feature_value features')).
  - reflexivity.
  - intros name Hname. unfold feature_value. rewrite (Hagree name Hname).
    reflexivity.
Qed.

Ltac each_feature_name H :=
  repeat (apply elem_of_cons in H as [->|H]; [reflexivity|]);
  apply elem_of_nil in H; contradiction.

Lemma feature_vector_ignores_other_keys_witness :
  create_feature_vector Norm.Qsqrt_up
    {[ "tempo"%string := VFloat 130 ]}
  = create_feature_vector Norm.Qsqrt_up
      {[ "tempo"%string := VFloat 130; "key"%string := VStr "C";
         "beat_count"%string := VInt 212 ]}.
Proof.
  apply feature_vector_ignores_other_keys.
  intros name Hname. unfold feature_order in Hname. each_feature_name Hname.
Defined.

(** *** Missing and non-numeric descriptors *)

Lemma normalize_tempo_lookup_zero (raw : list Q) (i : nat) :
  raw !! i = Some 0%Q -> normalize_tempo raw !! i = Some 0%Q.
Proof.
  destruct raw as [|t rest]; [intros H; exact H|].
  destruct i as [|i]; simpl; [|intros H; exact H].
  intros [= ->]. reflexivity.
Qed.

Lemma _normalize_vector_lookup_zero (sqrt : Q -> Q) (raw : list Q) (i : nat) :
  raw !! i = Some 0%Q ->
  exists x, _normalize_vector sqrt raw !! i = Some x /\ (x == 0)%Q.
Proof.
  intros Hraw. apply normalize_tempo_lookup_zero in Hraw.
  unfold _normalize_vector.
  assert (Hclip : map clip01 (normalize_tempo raw) !! i = Some 0%Q).
  { change (map clip01 (normalize_tempo raw))
      with (clip01 <$> normalize_tempo raw).
    rewrite list_lookup_fmap, Hraw. reflexivity. }
  destruct (Qltb 0 _).
  - eexists. split.
    + match goal with
      | |- map ?f ?l !! i = _ => change (map f l) with (f <$> l)
      end.
      rewrite list_lookup_fmap, Hclip. reflexivity.
    + simpl. unfold Qdiv. apply Qmult_0_l.
  - exists 0%Q. split; [exact Hclip|reflexivity].
Qed.

(** X3: a name of [feature_order] that the dictionary does not hold, or
    holds with a value that is neither a number nor a string of digits
    and dots, contributes the component 0 at its position. *)
Theorem absent_feature_gives_zero_component
    (sqrt : Q -> Q) (features : gmap string value)
    (i : nat) (name : string) (v : list Q) :
  feature_order !! i = Some name ->
  features !! name = None \/ features !! name = Some VOther \/
  (exists s, features !! name = Some (VStr s) /\
             isdigit (remove_dots s) = false) ->
  create_feature_vector sqrt features = Ok v ->
  exists x, v !! i = Some x /\ (x == 0)%Q.
Proof.
  intros Hname Hval Hv. unfold create_feature_vector in Hv.
  destruct (vector_values features) as [raw|e] eqn:Hraw; simpl in Hv;
    [|discriminate].
  injection Hv as <-.
  destruct (mapM_lookup _ _ _ _ _ Hraw Hname) as (y & Hy & Hfy).
  assert (y = 0%Q) as ->.
  { unfold feature_value in Hfy.
    destruct Hval as [H|[H|(s & H & Hguard)]]; rewrite H in Hfy;
      [| |rewrite Hguard in Hfy]; congruence. }
  apply _normalize_vector_lookup_zero. exact Hy.
Qed.

Lemma absent_feature_gives_zero_component_witness :
  exists v x,
    create_feature_vector Norm.Qsqrt_up
      {[ "tempo"%string := VFloat 340; "energy"%string := VStr "loud" ]} = Ok v /\
    v !! 1%nat = Some x /\ (x == 0)%Q /\
    (exists y, v !! 2%nat = Some y /\ (y == 0)%Q).
Proof.
  set (features := ({[ "tempo"%string := VFloat 340;
                       "energy"%string := VStr "loud" ]} : gmap string value)).
  destruct (create_feature_vector Norm.Qsqrt_up features) as [v|e] eqn:Hv;
    [|vm_compute in Hv; discriminate Hv].
  assert (Henergy : features !! "energy"%string = None \/
                    features !! "energy"%string = Some VOther \/
                    (exists s, features !! "energy"%string = Some (VStr s) /\
                               isdigit (remove_dots s) = false)).
  { right. right. exists "loud"%string. split; reflexivity. }
  destruct (absent_feature_gives_zero_component Norm.Qsqrt_up features
              1 "energy" v eq_refl Henergy Hv) as (x & Hx & Hx0).
  exists v, x. split; [reflexivity|]. split; [exact Hx|]. split; [exact Hx0|].
  apply (absent_feature_gives_zero_component Norm.Qsqrt_up features
           2 "danceability" v eq_refl).
  - left. reflexivity.
  - exact Hv.
Defined.

(** X4: after clipping (and before the division by the norm) the tempo
    slot is 0 for every raw tempo up to 60, negative ones included, 1 for
    every raw tempo from 200 on, and [(t - 60) / 140] in between; the
    other slots are clipped as they are. *)
Theorem clipped_tempo_slot (t : Q) (rest : list Q) :
  exists c,
    map clip01 (normalize_tempo (t :: rest)) = c :: map clip01 rest /\
    ((t <= 60)%Q -> (c == 0)%Q) /\
    ((200 <= t)%Q -> (c == 1)%Q) /\
    ((60 <= t)%Q -> (t <= 200)%Q -> (c == (t - 60) / 140)%Q).
Proof.
  exists (clip01 (tempo_component t)). split; [reflexivity|].
  assert (Hdiv : ((t - 60) / 140 == (t - 60) * (1 # 140))%Q)
    by (unfold Qdiv; reflexivity).
  unfold tempo_component, clip01.
  destruct (Qltb 0 t) eqn:Ht.
  - apply Qltb_lt in Ht.
    destruct (Qltb ((t - 60) / 140) 0) eqn:Hlo.
    + apply Qltb_lt in Hlo. rewrite Hdiv in Hlo. split; [|split].
      * intros _. reflexivity.
      * intros H. lra.
      * intros H1 H2. rewrite Hdiv. lra.
    + apply Qltb_ge in Hlo. rewrite Hdiv in Hlo.
      destruct (Qltb 1 ((t - 60) / 140)) eqn:Hhi.
      * apply Qltb_lt in Hhi. rewrite Hdiv in Hhi. split; [|split].
        -- intros H. lra.
        -- intros _. reflexivity.
        -- intros H1 H2. rewrite Hdiv. lra.
      * apply Qltb_ge in Hhi. rewrite Hdiv in Hhi. split; [|split].
        -- intros H. rewrite Hdiv. lra.
        -- intros H. rewrite Hdiv. lra.
        -- intros _ _. reflexivity.
  - apply Qltb_ge in Ht. simpl. split; [|split].
    + intros _. reflexivity.
    + intros H. lra.
    + intros H1 H2. lra.
Qed.

Lemma clipped_tempo_slot_witness :
  (exists c, map clip01 (normalize_tempo [45; 1 # 2]) = [c; 1 # 2] /\ c == 0)%Q /\
  (exists c, map clip01 (normalize_tempo [260; 1 # 2]) = [c; 1 # 2] /\ c == 1)%Q /\
  (exists c, map clip01 (normalize_tempo [130; 1 # 2]) = [c; 1 # 2] /\ c == 1 # 2)%Q.
Proof.
  split; [|split].
  - destruct (clipped_tempo_slot 45 [1 # 2]%Q) as (c & Hc & H0 & _).
    exists c. split; [exact Hc|]. apply H0. discriminate.
  - destruct (clipped_tempo_slot 260 [1 # 2]%Q) as (c & Hc & _ & H1 & _).
    exists c. split; [exact Hc|]. apply H1. discriminate.
  - destruct (clipped_tempo_slot 130 [1 # 2]%Q) as (c & Hc & _ & _ & Hm).
    exists c. split; [exact Hc|]. rewrite Hm by discriminate. reflexivity.
Defined.

Lemma mapM_const {A B} (f : A -> result B) (b : B) (xs : list A) :
  (forall x, x ∈ xs -> f x = Ok b) ->
  mapM f xs = Ok (repeat b (length xs)).
Proof.
  induction xs as [|x xs IH]; intros Hf; simpl; [reflexivity|].
  rewrite (Hf x) by left. simpl. rewrite IH; [reflexivity|].
  intros y Hy. apply Hf. right. exact Hy.
Qed.

(** X5: a dictionary that holds none of the sixteen names gives the zero
    vector: the norm is 0, the division is skipped and nothing is
    raised. *)
Theorem no_known_feature_gives_zero_vector
    (sqrt : Q -> Q) (features : gmap string value) :
  (sqrt 0 <= 0)%Q ->
  (forall name, name ∈ feature_order -> features !! name = None) ->
  create_feature_vector sqrt features = Ok (repeat 0%Q 16).
Proof.
  intros Hsqrt Hnone.
  assert (Hzero : _normalize_vector sqrt (repeat 0%Q 16) = repeat 0%Q 16).
  { unfold _normalize_vector, linalg_norm.
    change (map clip01 (normalize_tempo (repeat 0%Q 16))) with (repeat 0%Q 16).
    change (sum_squares (repeat 0%Q 16)) with 0%Q.
    apply Qltb_ge in Hsqrt. rewrite Hsqrt. reflexivity. }
  unfold create_feature_vector, vector_values.
  rewrite (mapM_const (feature_value features) 0%Q).
  - change (Ok (_normalize_vector sqrt (repeat 0%Q 16)) = Ok (repeat 0%Q 16)).
    rewrite Hzero. reflexivity.
  - intros name Hname. unfold feature_value. rewrite (Hnone name Hname).
    reflexivity.
Qed.

Lemma no_known_feature_gives_zero_vector_witness :
  create_feature_vector Norm.Qsqrt_up
    {[ "key"%string := VStr "C"; "scale"%string := VStr "minor" ]}
  = Ok (repeat 0%Q 16).
Proof.
  apply no_known_feature_gives_zero_vector.
  - discriminate.
  - intros name Hname. unfold feature_order in Hname. each_feature_name Hname.
Defined.

(** X6: [process_batch] returns one vector of sixteen components per
    dictionary, in order, and raises exactly when
    [create_feature_vector] raises on one of the dictionaries. *)
Theorem process_batch_rows
    (sqrt : Q -> Q) (feature_list : list (gmap string value)) :
  (forall rows,
     process_batch sqrt feature_list = Ok rows ->
     length rows = length feature_list /\
     Forall (fun row => length row = 16%nat) rows /\
     forall i features,
       feature_list !! i = Some features ->
       exists row, rows !! i = Some row /\
                   create_feature_vector sqrt features = Ok row) /\
  (forall e,
     process_batch sqrt feature_list = Raise e ->
     exists features, features ∈ feature_list /\
                      create_feature_vector sqrt features = Raise e).
Proof.
  unfold process_batch. split.
  - intros rows Hrows. split; [exact (mapM_length _ _ _ Hrows)|]. split.
    + apply (mapM_Forall (create_feature_vector sqrt) _ feature_list rows);
        [|exact Hrows].
      intros features row _ Hrow.
      exact (create_feature_vector_length sqrt features row Hrow).
    + intros i features Hi. exact (mapM_lookup _ _ _ _ _ Hrows Hi).
  - intros e He. exact (mapM_raise_elem _ _ _ He).
Qed.

Lemma process_batch_rows_witness :
  (exists rows,
     process_batch Norm.Qsqrt_up
       [ {[ "tempo"%string := VFloat 130 ]}; ∅ ] = Ok rows /\
     length rows = 2%nat) /\
  (exists features,
     features ∈ [ ({[ "tempo"%string := VFloat 130 ]} : gmap string value);
                  {[ "energy"%string := VStr "1.2.3" ]} ] /\
     create_feature_vector Norm.Qsqrt_up features = Raise ValueError).
Proof.
  split.
  - destruct (process_batch_rows Norm.Qsqrt_up
                [ {[ "tempo"%string := VFloat 130 ]}; ∅ ]) as [Hok _].
    eexists. split; [vm_compute; reflexivity|].
    refine (proj1 (Hok _ _)). vm_compute. reflexivity.
  - destruct (process_batch_rows Norm.Qsqrt_up
                [ {[ "tempo"%string := VFloat 130 ]};
                  {[ "energy"%string := VStr "1.2.3" ]} ]) as [_ Hraise].
    apply Hraise. vm_compute. reflexivity.
Defined.

End ProcessorsMore.

(** ** client.py *)

Module ClientMore.
Import Py Client PyFacts ClientProps Calls.

(** *** What a call that returns leaves *)

Lemma build_return_state
    (w w' : world) (vectors : ndarray) (ids : list string) :
  build vectors ids w = (Ok tt, w') ->
  exists d rows,
    vectors = Array2 d rows /\
    length rows = length ids /\
    self w' = {| index_path := index_path (self w);
                 index := Some (faiss.mkIndex d 32 40 rows);
                 item_ids := ids;
                 dimension := Some d |}.
Proof.
  unfold build.
  destruct (Nat.eqb_spec (ndarray_len vectors) (length ids)) as [Hlen|Hlen];
    simpl; [|discriminate].
  destruct vectors as [xs|d rows|rows]; run_method; try discriminate.
  rewrite Nat.eqb_refl. simpl.
  unfold _save_index, save_faiss_file, save_metadata_file. run_method.
  intros [= <-]. exists d, rows.
  split; [reflexivity|]. split; [exact Hlen|reflexivity].
Qed.

(** X7: a [build] that returns was given a matrix and as many ids as the
    matrix has rows, and has replaced whatever state came before: the
    instance holds exactly the given ids and rows and the number of
    columns as dimension, both files hold the same, and no other file is
    changed. *)
Theorem build_replaces_index
    (w w' : world) (vectors : ndarray) (ids : list string) :
  build vectors ids w = (Ok tt, w') ->
  exists d rows,
    vectors = Array2 d rows /\
    length rows = length ids /\
    self w' = {| index_path := index_path (self w);
                 index := Some (faiss.mkIndex d 32 40 rows);
                 item_ids := ids;
                 dimension := Some d |} /\
    fs w' !! index_file w = Some (FaissFile (faiss.mkIndex d 32 40 rows)) /\
    fs w' !! metadata_file w
      = Some (PickleFile (PyDict (Some ids) (Some (Some d)))) /\
    forall path, path <> index_file w -> path <> metadata_file w ->
                 fs w' !! path = fs w !! path.
Proof.
  unfold build.
  destruct (Nat.eqb_spec (ndarray_len vectors) (length ids)) as [Hlen|Hlen];
    simpl; [|discriminate].
  destruct vectors as [xs|d rows|rows]; run_method; try discriminate.
  rewrite Nat.eqb_refl. simpl.
  unfold _save_index, save_faiss_file, save_metadata_file. run_method.
  intros [= <-]. exists d, rows.
  split; [reflexivity|]. split; [exact Hlen|]. split; [reflexivity|]. simpl.
  unfold index_file, metadata_file. simpl.
  split; [|split].
  - rewrite lookup_insert_ne; [apply lookup_insert_eq|].
    intros H. symmetry in H. exact (artifacts_differ w H).
  - apply lookup_insert_eq.
  - intros path Hi Hm.
    rewrite lookup_insert_ne by (intros H; apply Hm; symmetry; exact H).
    rewrite lookup_insert_ne by (intros H; apply Hi; symmetry; exact H).
    reflexivity.
Qed.

Lemma build_replaces_index_witness :
  let w' := snd (build (Array2 3 [[1; 2; 3]]%Q) ["n"]%string two_items) in
  item_ids (self w') = ["n"]%string /\
  dimension (self w') = Some 3%nat /\
  option_map faiss.xb (index (self w')) = Some [[1; 2; 3]]%Q /\
  fs w' !! "/data/index/metadata.pkl"%string
    = Some (PickleFile (PyDict (Some ["n"]%string) (Some (Some 3%nat)))).
Proof.
  intros w'.
  destruct (build_replaces_index two_items w'
              (Array2 3 [[1; 2; 3]]%Q) ["n"]%string eq_refl)
    as (d & rows & Hv & _ & Hself & _ & Hmeta & _).
  injection Hv as <- <-.
  rewrite Hself. repeat (split; [reflexivity|]). exact Hmeta.
Defined.

(** X8: an [add_items] that returns on a built index was given a matrix
    of the index's dimension, and has appended: the ids go behind the
    ids and the rows behind the stored vectors, so that every earlier
    entry keeps its position; the dimension stays and both files are
    rewritten.  The number of ids is not compared with the number of
    rows. *)
Theorem add_items_appends
    (w w' : world) (ix : faiss.Index) (vectors : ndarray) (ids : list string) :
  index (self w) = Some ix ->
  add_items vectors ids w = (Ok tt, w') ->
  exists rows,
    vectors = Array2 (faiss.d ix) rows /\
    item_ids (self w') = item_ids (self w) ++ ids /\
    option_map faiss.xb (index (self w')) = Some (faiss.xb ix ++ rows) /\
    option_map faiss.d (index (self w')) = Some (faiss.d ix) /\
    dimension (self w') = dimension (self w) /\
    index_path (self w') = index_path (self w) /\
    fs w' !! index_file w = option_map FaissFile (index (self w')) /\
    fs w' !! metadata_file w
      = Some (PickleFile (PyDict (Some (item_ids (self w) ++ ids))
                                 (Some (dimension (self w))))).
Proof.
  intros Hix. unfold add_items. run_method. rewrite Hix. run_method.
  destruct vectors as [xs|d rows|rows]; run_method; try discriminate.
  destruct (Nat.eqb_spec d (faiss.d ix)) as [->|Hd]; simpl; [|discriminate].
  unfold _save_index, save_faiss_file, save_metadata_file. run_method.
  intros [= <-]. exists rows. simpl. repeat (split; [reflexivity|]).
  unfold index_file, metadata_file. simpl. split.
  - rewrite lookup_insert_ne; [apply lookup_insert_eq|].
    intros H. symmetry in H. exact (artifacts_differ w H).
  - apply lookup_insert_eq.
Qed.

Lemma add_items_appends_witness :
  let w' := snd (add_items (Array2 2 [[1; 1]]%Q) ["c"; "d"]%string two_items) in
  item_ids (self w') = ["a"; "b"; "c"; "d"]%string /\
  option_map faiss.xb (index (self w')) = Some [[1; 0]; [0; 1]; [1; 1]]%Q.
Proof.
  intros w'.
  destruct (add_items_appends two_items w'
              (faiss.mkIndex 2 32 40 [[1; 0]; [0; 1]]%Q)
              (Array2 2 [[1; 1]]%Q) ["c"; "d"]%string eq_refl eq_refl)
    as (rows & Hv & Hids & Hxb & _).
  injection Hv as <-. split; [exact Hids|exact Hxb].
Defined.

(** *** Invariants over sequences of calls *)

Lemma build_returns_aligned
    (w w' : world) (vectors : ndarray) (ids : list string) :
  build vectors ids w = (Ok tt, w') -> aligned (self w').
Proof.
  intros Hrun.
  destruct (build_return_state w w' vectors ids Hrun)
    as (d & rows & _ & Hlen & Hself).
  rewrite Hself. unfold aligned, ann_size, faiss.ntotal. simpl.
  symmetry. exact Hlen.
Qed.

Lemma add_items_returns_aligned
    (w w' : world) (vectors : ndarray) (ids : list string) :
  aligned (self w) ->
  ndarray_len vectors = length ids ->
  add_items vectors ids w = (Ok tt, w') ->
  aligned (self w').
Proof.
  intros Hal Hlen. unfold add_items. run_method.
  destruct (index (self w)) as [ix|] eqn:Hix;
    [|apply build_returns_aligned].
  destruct vectors as [xs|d rows|rows]; run_method; try discriminate.
  destruct (d =? faiss.d ix)%nat; simpl; [|discriminate].
  unfold _save_index, save_faiss_file, save_metadata_file. run_method.
  intros [= <-].
  unfold aligned, ann_size in *. rewrite Hix in Hal.
  unfold faiss.ntotal in *. simpl in *. rewrite !length_app. lia.
Qed.

(** X9: over any sequence of [build] and [add_items] calls that all
    return, the id list stays as long as the ANN structure is large,
    provided every [add_items] call passes as many ids as vectors. *)
Theorem calls_keep_alignment (calls : list call) (w : world) :
  aligned (self w) ->
  Forall counts_match calls ->
  calls_return calls w ->
  aligned (self (do_calls calls w)).
Proof.
  intros Hal Hcalls. revert w Hal.
  induction Hcalls as [|c calls Hc _ IH]; intros w Hal Hret; [exact Hal|].
  destruct Hret as [Hc_ret Hret].
  unfold do_calls. simpl. apply IH; [|exact Hret].
  destruct (do_call c w) as [r w'] eqn:Hcall. simpl in Hc_ret. subst r.
  simpl. destruct c as [vectors ids|vectors ids]; simpl in *.
  - exact (build_returns_aligned _ _ _ _ Hcall).
  - exact (add_items_returns_aligned _ _ _ _ Hal Hc Hcall).
Qed.

Lemma calls_keep_alignment_witness :
  aligned
    (self (do_calls
             [ AddItems (Array2 2 [[1; 0]]%Q) ["a"]%string;
               Build (Array2 2 [[0; 1]; [1; 1]]%Q) ["c"; "d"]%string;
               AddItems (Array2 2 [[0; 1]; [1; 1]]%Q) ["e"; "f"]%string ]
             empty_world)).
Proof.
  apply calls_keep_alignment.
  - reflexivity.
  - repeat constructor.
  - vm_compute. repeat split.
Defined.

(** X10: once an index is built with dimension [D], no [add_items] call
    changes the dimension, whatever its arguments and whether it returns
    or raises. *)
Theorem add_items_keeps_dimension
    (w : world) (D : nat) (vectors : ndarray) (ids : list string) :
  built_with (self w) D ->
  built_with (self (snd (add_items vectors ids w))) D.
Proof.
  intros (ix & Hix & Hd & Hdim).
  unfold add_items. run_method. rewrite Hix. run_method.
  destruct (faiss.add ix vectors) as [ix'|e] eqn:Hadd; simpl.
  - exists ix'. split; [reflexivity|]. split; [|exact Hdim].
    destruct vectors as [xs|d rows|rows]; simpl in Hadd; try discriminate.
    destruct (d =? faiss.d ix)%nat; [|discriminate].
    injection Hadd as <-. exact Hd.
  - exists ix. auto.
Qed.

Lemma add_items_keeps_dimension_witness :
  built_with
    (self (snd (add_items (Array2 2 [[5; 5]]%Q) ["c"]%string two_items))) 2 /\
  built_with
    (self (snd (add_items (Array2 7 [[5; 5]]%Q) ["c"]%string two_items))) 2.
Proof.
  split; apply add_items_keeps_dimension; exact two_items_built.
Defined.

(** *** Persistence after each mutation *)

Lemma reload_after_save (w w' : world) (ix : faiss.Index)
    (root : option string) (environ : gmap string string) :
  index (self w) = Some ix ->
  _save_index w = (Ok tt, w') ->
  resolve_index_path root environ = index_path (self w) ->
  self w' = self w /\
  __init__ root environ (fs w')
  = (Ok tt,
     {| self := {| index_path := index_path (self w); index := Some ix;
                   item_ids := item_ids (self w);
                   dimension := dimension (self w) |};
        fs := fs w' |}).
Proof.
  intros Hix Hsave Hroot. rewrite (save_index_built w ix Hix) in Hsave.
  injection Hsave as <-. split; [reflexivity|].
  unfold __init__. rewrite Hroot.
  rewrite (load_saved _ _ ix (item_ids (self w)) (dimension (self w))).
  - reflexivity.
  - simpl. rewrite lookup_insert_ne; [apply lookup_insert_eq|].
    intros H. symmetry in H. exact (artifacts_differ w H).
  - simpl. apply lookup_insert_eq.
Qed.

Lemma build_ends_in_save (w w' : world) (vectors : ndarray) (ids : list string) :
  build vectors ids w = (Ok tt, w') ->
  exists w0 ix, index (self w0) = Some ix /\
                index_path (self w0) = index_path (self w) /\
                _save_index w0 = (Ok tt, w').
Proof.
  unfold build.
  destruct (ndarray_len vectors =? length ids)%nat; simpl; [|discriminate].
  destruct vectors as [xs|d rows|rows]; run_method; try discriminate.
  rewrite Nat.eqb_refl. simpl. intros Hsave.
  eexists. eexists. split; [|split; [|exact Hsave]]; reflexivity.
Qed.

Lemma add_items_ends_in_save
    (w w' : world) (vectors : ndarray) (ids : list string) :
  add_items vectors ids w = (Ok tt, w') ->
  exists w0 ix, index (self w0) = Some ix /\
                index_path (self w0) = index_path (self w) /\
                _save_index w0 = (Ok tt, w').
Proof.
  unfold add_items. run_method.
  destruct (index (self w)) as [ix|] eqn:Hix; [|apply build_ends_in_save].
  destruct (faiss.add ix vectors) as [ix'|e]; simpl; [|discriminate].
  intros Hsave.
  eexists. eexists. split; [|split; [|exact Hsave]]; reflexivity.
Qed.

(** X11: every [build] and every [add_items] that returns has written
    the whole instance to its storage root: a fresh instance constructed
    over that root right after the call is equal to the instance the
    call left (ids, dimension, ANN structure and path). *)
Theorem mutation_is_persisted
    (c : call) (w w' : world)
    (root : option string) (environ : gmap string string) :
  do_call c w = (Ok tt, w') ->
  resolve_index_path root environ = index_path (self w) ->
  __init__ root environ (fs w') = (Ok tt, {| self := self w'; fs := fs w' |}).
Proof.
  intros Hcall Hroot.
  assert (Hsave : exists w0 ix, index (self w0) = Some ix /\
                    index_path (self w0) = index_path (self w) /\
                    _save_index w0 = (Ok tt, w')).
  { destruct c as [vectors ids|vectors ids]; simpl in Hcall.
    - exact (build_ends_in_save _ _ _ _ Hcall).
    - exact (add_items_ends_in_save _ _ _ _ Hcall). }
  destruct Hsave as (w0 & ix & Hix & Hpath & Hsave).
  rewrite <- Hpath in Hroot.
  destruct (reload_after_save w0 w' ix root environ Hix Hsave Hroot)
    as [Hself Hload].
  rewrite Hload, Hself. destruct (self w0) as [p i ids dim]. simpl in *.
  rewrite Hix. reflexivity.
Qed.

Lemma mutation_is_persisted_witness :
  exists w',
    do_call (AddItems (Array2 2 [[1; 1]]%Q) ["c"]%string) two_items
      = (Ok tt, w') /\
    __init__ None ∅ (fs w') = (Ok tt, {| self := self w'; fs := fs w' |}).
Proof.
  eexists. split; [vm_compute; reflexivity|].
  apply (mutation_is_persisted
           (AddItems (Array2 2 [[1; 1]]%Q) ["c"]%string) two_items).
  - vm_compute. reflexivity.
  - reflexivity.
Defined.

(** *** Search *)

(** X12: an instance constructed over a storage root where an artifact
    is missing or unreadable answers every [search] with RuntimeError,
    and its [add_items] is [build]. *)
Theorem unbuilt_instance_calls
    (hnsw_search : faiss.Index -> list Q -> nat -> list (Q * Z))
    (root : option string) (environ : gmap string string)
    (disk : gmap string file) :
  let path := resolve_index_path root environ in
  let w := snd (__init__ root environ disk) in
  disk !! path_join path "faiss.index" = None \/
  disk !! path_join path "metadata.pkl" = None \/
  is_ok (read_index (disk !! path_join path "faiss.index")) = false \/
  is_ok (pickle_load (disk !! path_join path "metadata.pkl")) = false ->
  (forall query k, search hnsw_search (self w) query k = Raise RuntimeError) /\
  (forall vectors ids, add_items vectors ids w = build vectors ids w).
Proof.
  intros path w Hbad.
  destruct (load_missing_or_unreadable root environ disk Hbad) as [Hrun _].
  unfold w. rewrite Hrun. simpl. split; reflexivity.
Qed.

Lemma unbuilt_instance_calls_witness :
  search exact_search (self empty_world) (Array1 [1; 0]%Q) 5
    = Raise RuntimeError /\
  add_items (Array2 2 [[1; 0]]%Q) ["a"]%string empty_world
    = build (Array2 2 [[1; 0]]%Q) ["a"]%string empty_world.
Proof.
  assert (Hmissing :
    (∅ : gmap string file)
      !! path_join (resolve_index_path None ∅) "faiss.index" = None \/
    (∅ : gmap string file)
      !! path_join (resolve_index_path None ∅) "metadata.pkl" = None \/
    is_ok (read_index ((∅ : gmap string file)
      !! path_join (resolve_index_path None ∅) "faiss.index")) = false \/
    is_ok (pickle_load ((∅ : gmap string file)
      !! path_join (resolve_index_path None ∅) "metadata.pkl")) = false).
  { left. reflexivity. }
  destruct (unbuilt_instance_calls exact_search None ∅ ∅ Hmissing)
    as [Hsearch Hadd].
  split; [apply Hsearch|apply Hadd].
Defined.

(** X13: when every slot of the ANN answer holds an id inside the id
    list, the loop of [search] returns one tuple per slot, in the order
    of the slots: the item id stored at the slot's id, the slot's
    distance, and the similarity [1 / (1 + distance)]. *)
Theorem search_results_of_valid_slots
    (ids : list string) (slots : list (Q * Z)) :
  Forall (fun slot => 0 <= slot.2 < len ids)%Z slots ->
  exists results,
    search_results ids slots = Ok results /\
    length results = length slots /\
    forall i distance idx,
      slots !! i = Some (distance, idx) ->
      exists item,
        ids !! Z.to_nat idx = Some item /\
        results !! i = Some (item, distance, (1 / (1 + distance))%Q).
Proof.
  induction slots as [|[distance idx] slots IH]; intros Hvalid.
  - exists []. split; [reflexivity|]. split; [reflexivity|].
    intros i d x H. destruct i; discriminate H.
  - apply Forall_cons in Hvalid as [[Hlo Hhi] Hvalid]. simpl in Hlo, Hhi.
    destruct (IH Hvalid) as (results & Hres & Hlen & Hnth).
    assert (Hitem : exists item, ids !! Z.to_nat idx = Some item).
    { apply lookup_lt_is_Some. unfold len in Hhi. lia. }
    destruct Hitem as [item Hitem].
    exists ((item, distance, (1 / (1 + distance))%Q) :: results).
    split; [|split].
    + rewrite <- (Z2Nat.id idx) by exact Hlo.
      rewrite (search_results_in_range ids _ item distance slots Hitem).
      rewrite Hres. reflexivity.
    + simpl. f_equal. exact Hlen.
    + intros [|i] d x; simpl.
      * intros [= <- <-]. exists item. split; [exact Hitem|reflexivity].
      * apply Hnth.
Qed.

Lemma search_results_of_valid_slots_witness :
  search_results ["a"; "b"; "c"]%string [(0, 2%Z); (1 # 2, 0%Z)]%Q
  = Ok [("c"%string, 0, 1 / (1 + 0)); ("a"%string, 1 # 2, 1 / (1 + (1 # 2)))]%Q.
Proof.
  assert (Hvalid : Forall (fun slot => 0 <= slot.2 < len ["a"; "b"; "c"]%string)%Z
                          [(0, 2%Z); (1 # 2, 0%Z)]%Q).
  { repeat (constructor; [unfold len; simpl; lia|]). constructor. }
  destruct (search_results_of_valid_slots ["a"; "b"; "c"]%string
              [(0, 2%Z); (1 # 2, 0%Z)]%Q Hvalid) as (results & Hres & _ & Hnth).
  destruct (Hnth 0%nat 0%Q 2%Z eq_refl) as (item0 & Hitem0 & Hr0).
  destruct (Hnth 1%nat (1 # 2)%Q 0%Z eq_refl) as (item1 & Hitem1 & Hr1).
  reflexivity.
Defined.

Lemma search_results_sound
    (ids : list string) (slots : list (Q * Z)) (results : list (string * Q * Q)) :
  search_results ids slots = Ok results ->
  (length results <= length slots)%nat /\
  Forall (fun r => r.1.1 ∈ ids /\ r.2 = (1 / (1 + r.1.2))%Q /\
                   exists idx, (r.1.2, idx) ∈ slots) results.
Proof.
  revert results. induction slots as [|[distance idx] slots IH];
    intros results; simpl.
  - intros [= <-]. split; [simpl; lia|constructor].
  - destruct (idx <? len ids)%Z.
    + destruct (getitem ids idx) as [item|e] eqn:Hitem; simpl; [|discriminate].
      destruct (search_results ids slots) as [rest|e]; simpl; [|discriminate].
      intros [= <-]. destruct (IH rest eq_refl) as [Hlen Hall].
      split; [simpl; lia|]. constructor.
      * simpl. split; [|split; [reflexivity|]].
        -- unfold getitem in Hitem.
           destruct (_ <? 0)%Z; [discriminate|].
           destruct (ids !! _) as [x|] eqn:Hx; [|discriminate].
           injection Hitem as <-. exact (list_elem_of_lookup_2 _ _ _ Hx).
        -- exists idx. left.
      * eapply Forall_impl; [exact Hall|].
        intros r (Hin & Hsim & idx' & Hslot).
        split; [exact Hin|]. split; [exact Hsim|].
        exists idx'. right. exact Hslot.
    + intros Hres. destruct (IH results Hres) as [Hlen Hall].
      split; [simpl; lia|]. eapply Forall_impl; [exact Hall|].
      intros r (Hin & Hsim & idx' & Hslot).
      split; [exact Hin|]. split; [exact Hsim|].
      exists idx'. right. exact Hslot.
Qed.

Lemma similarity_range (distance : Q) :
  (0 <= distance)%Q ->
  (0 < 1 / (1 + distance))%Q /\ (1 / (1 + distance) <= 1)%Q.
Proof.
  intros Hd. split.
  - apply Qlt_shift_div_l; lra.
  - apply Qle_shift_div_r; lra.
Qed.

Lemma search_flat_sound
    (hnsw_search : faiss.Index -> list Q -> nat -> list (Q * Z))
    (s : SimilarityIndex) (ix : faiss.Index) (xs : list Q) (k : Z)
    (results : list (string * Q * Q)) :
  index s = Some ix ->
  search hnsw_search s (Array1 xs) k = Ok results ->
  (length results <= length (hnsw_search ix xs (Z.to_nat k)))%nat /\
  Forall (fun r => r.1.1 ∈ item_ids s /\
                   r.2 = (1 / (1 + r.1.2))%Q /\
                   (exists idx, (r.1.2, idx) ∈ hnsw_search ix xs (Z.to_nat k)) /\
                   ((0 <= r.1.2)%Q -> (0 < r.2)%Q /\ (r.2 <= 1)%Q)) results.
Proof.
  intros Hix. unfold search. rewrite Hix. simpl.
  destruct (length xs =? faiss.d ix)%nat; simpl; [|discriminate].
  destruct (0 <? k)%Z; simpl; [|discriminate].
  change (getitem [hnsw_search ix xs (Z.to_nat k)] 0)
    with (Ok (hnsw_search ix xs (Z.to_nat k))).
  simpl. intros Hres.
  destruct (search_results_sound _ _ _ Hres) as [Hlen Hall].
  split; [exact Hlen|]. eapply Forall_impl; [exact Hall|].
  intros r (Hin & Hsim & Hslot). repeat (split; [assumption|]).
  intros Hd. rewrite Hsim. apply similarity_range. exact Hd.
Qed.

(** X14: whatever the ANN structure answers, a [search] that returns
    gives at most as many tuples as the answer has slots; each tuple
    carries an id of the id list, the distance of one of the slots and
    the similarity [1 / (1 + distance)], which lies in (0, 1] when the
    distance is not negative. *)
Theorem search_returns_known_ids
    (hnsw_search : faiss.Index -> list Q -> nat -> list (Q * Z))
    (s : SimilarityIndex) (ix : faiss.Index) (xs : list Q) (k : Z)
    (results : list (string * Q * Q)) :
  index s = Some ix ->
  search hnsw_search s (Array1 xs) k = Ok results ->
  (length results <= length (hnsw_search ix xs (Z.to_nat k)))%nat /\
  Forall (fun r => r.1.1 ∈ item_ids s /\
                   r.2 = (1 / (1 + r.1.2))%Q /\
                   (exists idx, (r.1.2, idx) ∈ hnsw_search ix xs (Z.to_nat k)) /\
                   ((0 <= r.1.2)%Q -> (0 < r.2)%Q /\ (r.2 <= 1)%Q)) results.
Proof.
  exact (search_flat_sound hnsw_search s ix xs k results).
Qed.

Lemma search_returns_known_ids_witness :
  exists results,
    search exact_search (self two_items) (Array1 [1; 0]%Q) 2 = Ok results /\
    (length results <= 2)%nat /\
    Forall (fun r => r.1.1 ∈ ["a"; "b"]%string) results.
Proof.
  destruct (search exact_search (self two_items) (Array1 [1; 0]%Q) 2)
    as [results|e] eqn:Hres; [|vm_compute in Hres; discriminate Hres].
  exists results. split; [reflexivity|].
  destruct (search_returns_known_ids exact_search (self two_items)
              (faiss.mkIndex 2 32 40 [[1; 0]; [0; 1]]%Q) [1; 0]%Q 2 results
              eq_refl Hres) as [Hlen Hall].
  split; [exact Hlen|]. eapply Forall_impl; [exact Hall|].
  intros r [Hin _]. exact Hin.
Defined.



End ClientMore.

(** ** server.py: the similarity service *)

Module SimilarityServerProps.
Import Py Client PyFacts ClientProps ClientMore ProcessorsMore.
Import Server SimilarityServer.

Lemma build_matrix (w : world) (d : nat) (rows : list (list Q))
    (ids : list string) :
  length rows = length ids ->
  build (Array2 d rows) ids w =
    (Ok tt,
     write_file (metadata_file w)
       (PickleFile (PyDict (Some ids) (Some (Some d))))
       (write_file (index_file w) (FaissFile (faiss.mkIndex d 32 40 rows))
          {| self := {| index_path := index_path (self w);
                        index := Some (faiss.mkIndex d 32 40 rows);
                        item_ids := ids;
                        dimension := Some d |};
             fs := fs w |})).
Proof.
  intros Hlen. unfold build. simpl. rewrite Hlen, Nat.eqb_refl. simpl.
  run_method. rewrite Nat.eqb_refl. simpl.
  unfold _save_index, save_faiss_file, save_metadata_file. run_method.
  reflexivity.
Qed.

Lemma build_not_a_matrix (w : world) (vectors : ndarray) (ids : list string) :
  ndim vectors <> 2%nat ->
  exists e, build vectors ids w = (Raise e, w).
Proof.
  intros Hnd. unfold build.
  destruct (ndarray_len vectors =? length ids)%nat; simpl; [|eauto].
  destruct vectors as [xs|d rows|rows]; run_method; eauto.
  contradiction Hnd. reflexivity.
Qed.

Section Service.

Variable hnsw_search : faiss.Index -> list Q -> nat -> list (Q * Z).
Variable str_exn : exn -> string.
Variable ragged_raises : bool.

Local Abbreviation BuildIndex := (BuildIndex str_exn ragged_raises).
Local Abbreviation FindSimilar := (FindSimilar hnsw_search str_exn).

Lemma BuildIndex_run (request : BuildIndexRequest.t) (w : world) :
  let items := BuildIndexRequest.items request in
  let failed e := BuildIndexResponse.mk false 0 (str_exn e) in
  BuildIndex request w =
    match mapM (fun item => frombuffer (IndexItem.feature_vector item)) items with
    | Raise e => (Ok (failed e), w)
    | Ok vectors =>
        match np_array ragged_raises vectors with
        | Raise e => (Ok (failed e), w)
        | Ok matrix =>
            match build matrix (map IndexItem.item_id items) w with
            | (Ok _, w') =>
                (Ok (BuildIndexResponse.mk true
                       (len (map IndexItem.item_id items)) ""), w')
            | (Raise e, w') => (Ok (failed e), w')
            end
        end
    end.
Proof.
  intros items failed.
  unfold SimilarityServer.BuildIndex, try_except.
  cbv [mbind M_bind seq lift ret]. fold items.
  destruct (mapM _ items) as [vectors|e]; [|reflexivity].
  destruct (np_array ragged_raises vectors) as [matrix|e]; [|reflexivity].
  destruct (build matrix (map IndexItem.item_id items) w) as [[u|e] w'];
    reflexivity.
Qed.

Lemma decoded_buffers (items : list IndexItem.t) (rows : list (list Q)) :
  mapM (fun item => frombuffer (IndexItem.feature_vector item)) items = Ok rows
  <-> map IndexItem.feature_vector items = map Float32Buffer rows.
Proof.
  revert rows. induction items as [|item items IH]; intros rows; simpl.
  - split.
    + intros [= <-]. reflexivity.
    + destruct rows; [reflexivity|discriminate].
  - destruct (IndexItem.feature_vector item) as [xs|]; simpl.
    + destruct (mapM _ items) as [rest|e] eqn:Hrest; simpl.
      * split.
        -- intros [= <-]. simpl. f_equal. apply IH. reflexivity.
        -- destruct rows as [|row rows]; [discriminate|].
           simpl. intros [= -> Hrows]. apply IH in Hrows.
           injection Hrows as ->. reflexivity.
      * split; [discriminate|].
        destruct rows as [|row rows]; [discriminate|].
        simpl. intros [= _ Hrows]. apply IH in Hrows. discriminate Hrows.
    + split; [discriminate|]. destruct rows; discriminate.
Qed.

(** X16: [BuildIndex] answers [success = False] with [item_count] 0, and
    leaves the index and the files exactly as they were, when the
    request has no item, when a buffer's size is no multiple of the
    size of a float32, and when two buffers hold different numbers of
    values. *)
Theorem BuildIndex_rejected_request
    (request : BuildIndexRequest.t) (w : world) :
  BuildIndexRequest.items request = [] \/
  (exists item,
     item ∈ BuildIndexRequest.items request /\
     IndexItem.feature_vector item = MisalignedBuffer) \/
  (exists rows row row',
     map IndexItem.feature_vector (BuildIndexRequest.items request)
       = map Float32Buffer rows /\
     row ∈ rows /\ row' ∈ rows /\ length row <> length row') ->
  exists e,
    BuildIndex request w
    = (Ok (BuildIndexResponse.mk false 0 (str_exn e)), w).
Proof.
  rewrite BuildIndex_run.
  set (items := BuildIndexRequest.items request).
  intros [Hnil|[(item & Hitem & Hbuf)|(rows & row & row' & Hrows & Hr & Hr' & Hne)]].
  - rewrite Hnil.
    destruct (build_not_a_matrix w (Array1 []) []) as [e He];
      [unfold ndim; simpl; discriminate|].
    cbn [mapM map np_array]. rewrite He. eauto.
  - destruct (mapM _ items) as [vectors|e] eqn:Hvec; [|eauto].
    apply list_elem_of_lookup_1 in Hitem as [i Hi].
    destruct (mapM_lookup _ _ _ _ _ Hvec Hi) as (y & _ & Hy).
    rewrite Hbuf in Hy. discriminate Hy.
  - apply decoded_buffers in Hrows. rewrite Hrows.
    unfold np_array. destruct rows as [|first others].
    { apply elem_of_nil in Hr. contradiction. }
    destruct (forallb _ others) eqn:Hsame.
    + exfalso. apply Hne.
      assert (Hall : forall v, v ∈ first :: others -> length v = length first).
      { intros v Hv. apply elem_of_cons in Hv as [->|Hv]; [reflexivity|].
        rewrite forallb_forall in Hsame. apply Nat.eqb_eq.
        apply Hsame. apply list_elem_of_In. exact Hv. }
      rewrite (Hall row Hr), (Hall row' Hr'). reflexivity.
    + destruct ragged_raises; [eauto|].
      destruct (build_not_a_matrix w (ArrayObj (first :: others))
                  (map IndexItem.item_id items)) as [e He];
        [unfold ndim; simpl; discriminate|].
      rewrite He. eauto.
Qed.

(** X17: when [BuildIndex] answers [success = True], the request had at
    least one item and every buffer held the same number [d] of values;
    [item_count] is the number of items, and the index has dimension [d]
    and stores the decoded vectors in the order of the items, under
    their ids, in place of what it held before. *)
Theorem BuildIndex_builds
    (request : BuildIndexRequest.t) (w w' : world)
    (response : BuildIndexResponse.t) :
  BuildIndex request w = (Ok response, w') ->
  BuildIndexResponse.success response = true ->
  exists (d : nat) (rows : list (list Q)),
    map IndexItem.feature_vector (BuildIndexRequest.items request)
      = map Float32Buffer rows /\
    rows <> [] /\
    Forall (fun row => length row = d) rows /\
    BuildIndexResponse.item_count response
      = len (BuildIndexRequest.items request) /\
    self w' = {| index_path := index_path (self w);
                 index := Some (faiss.mkIndex d 32 40 rows);
                 item_ids := map IndexItem.item_id
                               (BuildIndexRequest.items request);
                 dimension := Some d |}.
Proof.
  rewrite BuildIndex_run.
  set (items := BuildIndexRequest.items request).
  destruct (mapM _ items) as [vectors|e] eqn:Hvec;
    [|intros [= <- _]; discriminate].
  pose proof (mapM_length _ _ _ Hvec) as Hlen.
  apply decoded_buffers in Hvec.
  unfold np_array. destruct vectors as [|first others].
  { destruct (build_not_a_matrix w (Array1 []) (map IndexItem.item_id items))
      as [e He]; [unfold ndim; simpl; discriminate|].
    rewrite He. intros [= <- _]. discriminate. }
  destruct (forallb _ others) eqn:Hsame.
  - rewrite (build_matrix w (length first) (first :: others)
               (map IndexItem.item_id items))
      by (rewrite length_map; exact Hlen).
    intros [= <- <-] _. exists (length first), (first :: others).
    split; [exact Hvec|]. split; [discriminate|]. split; [|split].
    + constructor; [reflexivity|]. apply Forall_forall. intros v Hv.
      rewrite forallb_forall in Hsame. apply Nat.eqb_eq.
      apply Hsame. apply list_elem_of_In. exact Hv.
    + simpl. unfold len. rewrite length_map. reflexivity.
    + reflexivity.
  - destruct ragged_raises; [intros [= <- _]; discriminate|].
    destruct (build_not_a_matrix w (ArrayObj (first :: others))
                (map IndexItem.item_id items)) as [e He];
      [unfold ndim; simpl; discriminate|].
    rewrite He. intros [= <- _]. discriminate.
Qed.

(** X18: every match [FindSimilar] returns names an id of the index's id
    list, and its similarity is [1 / (1 + distance)], within (0, 1] when
    the distance is not negative. *)
Theorem FindSimilar_matches
    (request : SimilarityRequest.t) (context : ServicerContext) (w : world)
    (m : SimilarityMatch.t) :
  m ∈ SimilarityResponse.matches (fst (FindSimilar request context w)) ->
  SimilarityMatch.item_id m ∈ item_ids (self w) /\
  SimilarityMatch.similarity m = (1 / (1 + SimilarityMatch.distance m))%Q /\
  ((0 <= SimilarityMatch.distance m)%Q ->
   (0 < SimilarityMatch.similarity m)%Q /\
   (SimilarityMatch.similarity m <= 1)%Q).
Proof.
  unfold SimilarityServer.FindSimilar.
  destruct (frombuffer _) as [xs|e]; simpl;
    [|intros H; apply elem_of_nil in H; contradiction].
  destruct (search hnsw_search (self w) (Array1 xs) _) as [results|e] eqn:Hres;
    simpl; [|intros H; apply elem_of_nil in H; contradiction].
  intros Hm. apply list_elem_of_fmap in Hm as ([[item distance] similarity] & -> & Hr).
  destruct (index (self w)) as [ix|] eqn:Hix;
    [|unfold search in Hres; rewrite Hix in Hres; discriminate Hres].
  destruct (search_flat_sound hnsw_search (self w) ix xs _ results Hix Hres)
    as [_ Hall].
  rewrite Forall_forall in Hall.
  destruct (Hall _ Hr) as (Hin & Hsim & _ & Hrange). simpl in *.
  split; [exact Hin|]. split; [exact Hsim|exact Hrange].
Qed.

(** X19: while the index is not built, [FindSimilar] answers every
    request with no match and sets the status INTERNAL on the call. *)
Theorem FindSimilar_before_build
    (request : SimilarityRequest.t) (context : ServicerContext) (w : world) :
  index (self w) = None ->
  FindSimilar request context w
  = (SimilarityResponse.mk [],
     {| code := Some INTERNAL;
        details := Some (str_exn
          match frombuffer (SimilarityRequest.feature_vector request) with
          | Ok _ => RuntimeError
          | Raise e => e
          end) |}).
Proof.
  intros Hix. unfold SimilarityServer.FindSimilar, search. rewrite Hix.
  destruct (frombuffer _); reflexivity.
Qed.

End Service.

Lemma BuildIndex_rejected_request_witness :
  BuildIndex (fun _ => ""%string) false (BuildIndexRequest.mk []) two_items
  = (Ok (BuildIndexResponse.mk false 0 ""), two_items) /\
  BuildIndex (fun _ => ""%string) false
    (BuildIndexRequest.mk
       [ IndexItem.mk "x" (Float32Buffer [1; 0]%Q);
         IndexItem.mk "y" (Float32Buffer [1]%Q) ]) two_items
  = (Ok (BuildIndexResponse.mk false 0 ""), two_items).
Proof.
  split.
  - destruct (BuildIndex_rejected_request (fun _ => ""%string) false
                (BuildIndexRequest.mk []) two_items) as [e He].
    + left. reflexivity.
    + exact He.
  - destruct (BuildIndex_rejected_request (fun _ => ""%string) false
                (BuildIndexRequest.mk
                   [ IndexItem.mk "x" (Float32Buffer [1; 0]%Q);
                     IndexItem.mk "y" (Float32Buffer [1]%Q) ]) two_items)
      as [e He].
    + right. right. exists [[1; 0]; [1]]%Q, [1; 0]%Q, [1]%Q.
      split; [reflexivity|]. split; [left|]. split; [right; left|].
      simpl. discriminate.
    + exact He.
Defined.

Lemma BuildIndex_builds_witness :
  exists (d : nat) (rows : list (list Q)),
    [Float32Buffer [1; 0]%Q; Float32Buffer [0; 1]%Q] = map Float32Buffer rows /\
    Forall (fun row => length row = d) rows /\
    self (snd (BuildIndex (fun _ => ""%string) true sample_items two_items))
    = {| index_path := "/data/index";
         index := Some (faiss.mkIndex d 32 40 rows);
         item_ids := ["x"; "y"]%string;
         dimension := Some d |}.
Proof.
  destruct (BuildIndex_builds (fun _ => ""%string) true sample_items two_items
              (snd (BuildIndex (fun _ => ""%string) true sample_items two_items))
              (BuildIndexResponse.mk true 2 "") eq_refl eq_refl)
    as (d & rows & Hrows & _ & Hdim & _ & Hself).
  exists d, rows. split; [exact Hrows|]. split; [exact Hdim|exact Hself].
Defined.

Lemma FindSimilar_matches_witness :
  exists m,
    m ∈ SimilarityResponse.matches
          (fst (FindSimilar exact_search (fun _ => ""%string)
                  (SimilarityRequest.mk (Float32Buffer [1; 0]%Q) 1)
                  (mkContext None None) two_items)) /\
    SimilarityMatch.item_id m ∈ ["a"; "b"]%string /\
    SimilarityMatch.similarity m = (1 / (1 + SimilarityMatch.distance m))%Q.
Proof.
  exists (SimilarityMatch.mk "a" (1 / (1 + 0)) 0).
  assert (Hm : SimilarityMatch.mk "a" (1 / (1 + 0)) 0
               ∈ SimilarityResponse.matches
                   (fst (FindSimilar exact_search (fun _ => ""%string)
                           (SimilarityRequest.mk (Float32Buffer [1; 0]%Q) 1)
                           (mkContext None None) two_items))).
  { vm_compute. left. }
  split; [exact Hm|].
  destruct (FindSimilar_matches exact_search (fun _ => ""%string) _ _ _ _ Hm)
    as (Hin & Hsim & _).
  split; [exact Hin|exact Hsim].
Defined.

Lemma FindSimilar_before_build_witness :
  FindSimilar exact_search (fun _ => "not built"%string)
    (SimilarityRequest.mk (Float32Buffer [1; 0]%Q) 5)
    (mkContext None None) empty_world
  = (SimilarityResponse.mk [],
     {| code := Some INTERNAL; details := Some "not built"%string |}).
Proof.
  apply (FindSimilar_before_build exact_search (fun _ => "not built"%string)).
  reflexivity.
Defined.

End SimilarityServerProps.

(** ** extractors.py *)

Module ExtractorsProps.
Import Py Processors PyFacts ProcessorsProps ProcessorsMore Extractors.

Lemma py_min_le_l (a b : Q) : (py_min a b <= a)%Q.
Proof.
  unfold py_min. destruct (Qltb b a) eqn:H.
  - apply Qltb_lt in H. lra.
  - apply Qle_refl.
Qed.

Lemma py_max_ge_l (a b : Q) : (a <= py_max a b)%Q.
Proof.
  unfold py_max. destruct (Qltb a b) eqn:H.
  - apply Qltb_lt in H. lra.
  - apply Qle_refl.
Qed.

Lemma py_max_min_le (b : Q) : (py_max 0 (py_min 1 b) <= 1)%Q.
Proof.
  pose proof (py_min_le_l 1 b) as Hmin. unfold py_max.
  destruct (Qltb 0 (py_min 1 b)); lra.
Qed.

Section Analyzer.

Variable audio : Type.
Variable _load_audio : string -> result audio.
Variable _extract_basic_features : audio -> result (gmap string value).
Variable _extract_rhythm_features : audio -> result (gmap string value).
Variable _extract_tonal_features : audio -> result (gmap string value).
Variable _extract_spectral_features : audio -> result (gmap string value).
Variable Energy : audio -> result Q.
Variable Centroid : audio -> result Q.
Variable ZeroCrossingRate : audio -> result Q.
Variable HFC : audio -> result Q.
Variable RollOff : audio -> result Q.

Local Abbreviation analyze_file :=
  (analyze_file audio _load_audio _extract_basic_features
     _extract_rhythm_features _extract_tonal_features
     _extract_spectral_features Energy Centroid ZeroCrossingRate HFC RollOff).

Local Abbreviation _extract_highlevel_features :=
  (_extract_highlevel_features audio Energy Centroid ZeroCrossingRate HFC RollOff).

Lemma analyze_file_filtered (file_path depth : string)
    (descriptors : list string) :
  descriptors <> [] ->
  analyze_file file_path depth descriptors =
    match analyze_file file_path depth [] with
    | Ok all => Ok (filter (fun kv => kv.1 ∈ descriptors) all)
    | Raise e => Raise e
    end.
Proof.
  intros Hne. unfold Extractors.analyze_file.
  destruct (_load_audio file_path) as [a|e]; simpl; [|reflexivity].
  destruct (extract_for_depth _ _ _ _ _ _ _ _ _ _ depth a) as [all|e];
    simpl; [|reflexivity].
  destruct descriptors; [contradiction|reflexivity].
Qed.

(** X20: a non-empty list of descriptors only filters the result of
    [analyze_file]: a requested key has the value the unfiltered
    analysis gives it, any other key is absent, and the call raises
    exactly when the unfiltered analysis raises, with the same
    exception. *)
Theorem analyze_file_descriptor_filter
    (file_path depth : string) (descriptors : list string) :
  descriptors <> [] ->
  (forall features,
     analyze_file file_path depth descriptors = Ok features ->
     exists all,
       analyze_file file_path depth [] = Ok all /\
       forall key,
         features !! key
         = if decide (key ∈ descriptors) then all !! key else None) /\
  (forall e,
     analyze_file file_path depth descriptors = Raise e <->
     analyze_file file_path depth [] = Raise e).
Proof.
  intros Hne. rewrite (analyze_file_filtered _ _ _ Hne).
  destruct (analyze_file file_path depth []) as [all|e0]; split.
  - intros features [= <-]. exists all. split; [reflexivity|].
    intros key. destruct (decide (key ∈ descriptors)) as [Hin|Hout].
    + destruct (all !! key) as [v|] eqn:Hk.
      * apply map_lookup_filter_Some_2; [exact Hk|exact Hin].
      * apply map_lookup_filter_None_2. left. exact Hk.
    + apply map_lookup_filter_None_2. right. intros v _. exact Hout.
  - intros e. split; discriminate.
  - intros features H. discriminate H.
  - intros e. tauto.
Qed.

(** X21: [analyze_file] never rejects a depth: every depth other than
    "lightweight" and "standard" gets the comprehensive analysis. *)
Theorem analyze_file_unknown_depth
    (file_path depth : string) (descriptors : list string) :
  depth <> "lightweight"%string ->
  depth <> "standard"%string ->
  analyze_file file_path depth descriptors
  = analyze_file file_path "comprehensive" descriptors.
Proof.
  intros Hl Hs. unfold Extractors.analyze_file, extract_for_depth.
  apply String.eqb_neq in Hl. apply String.eqb_neq in Hs.
  rewrite Hl, Hs. reflexivity.
Qed.

(** X22: when [_extract_highlevel_features] returns, it returns exactly
    the four keys valence, acousticness, instrumentalness and
    speechiness, as floats; acousticness and speechiness lie in [0, 1],
    valence and instrumentalness are at most 1 (and not bounded from
    below). *)
Theorem highlevel_features_ranges (a : audio) (features : gmap string value) :
  _extract_highlevel_features a = Ok features ->
  exists valence acousticness instrumentalness speechiness : Q,
    features = {[ "valence"%string := VFloat valence;
                  "acousticness"%string := VFloat acousticness;
                  "instrumentalness"%string := VFloat instrumentalness;
                  "speechiness"%string := VFloat speechiness ]} /\
    (valence <= 1)%Q /\
    (0 <= acousticness)%Q /\ (acousticness <= 1)%Q /\
    (instrumentalness <= 1)%Q /\
    (0 <= speechiness)%Q /\ (speechiness <= 1)%Q.
Proof.
  unfold Extractors._extract_highlevel_features.
  destruct (Energy a) as [energy|e]; simpl; [|discriminate].
  destruct (Centroid a) as [centroid|e]; simpl; [|discriminate].
  destruct (ZeroCrossingRate a) as [zcr|e]; simpl; [|discriminate].
  destruct (HFC a) as [hfc|e]; simpl; [|discriminate].
  destruct (RollOff a) as [rolloff|e]; simpl; [|discriminate].
  intros [= <-].
  eexists. eexists. eexists. eexists. split.
  - apply map_eq. intros key.
    destruct (decide (key = "speechiness"%string)) as [->|H1];
      [by simplify_map_eq|].
    destruct (decide (key = "instrumentalness"%string)) as [->|H2];
      [by simplify_map_eq|].
    destruct (decide (key = "acousticness"%string)) as [->|H3];
      [by simplify_map_eq|].
    destruct (decide (key = "valence"%string)) as [->|H4];
      [by simplify_map_eq|].
    by simplify_map_eq.
  - split; [apply py_min_le_l|].
    split; [apply py_max_ge_l|]. split; [apply py_max_min_le|].
    split; [apply py_min_le_l|].
    split; [apply py_max_ge_l|apply py_max_min_le].
Qed.

End Analyzer.

Lemma analyze_file_descriptor_filter_witness :
  exists features,
    sample_analyze_file "a.mp3" "standard" ["tempo"; "valence"]%string
      = Ok features /\
    features !! "tempo"%string = Some (VFloat 130) /\
    features !! "energy"%string = None.
Proof.
  assert (Hne : ["tempo"; "valence"]%string <> []) by discriminate.
  destruct (analyze_file_descriptor_filter string (fun path => Ok path)
              (sample_extractor "energy" (3 # 4))
              (sample_extractor "tempo" 130)
              (sample_extractor "key_strength" (4 # 5))
              (sample_extractor "spectral_centroid" 2500)
              (sample_measure (3 # 4)) (sample_measure 2500)
              (sample_measure (1 # 10)) (sample_measure 1500)
              (sample_measure 5000)
              "a.mp3" "standard" ["tempo"; "valence"]%string Hne) as [Hok _].
  eexists. split; [reflexivity|].
  destruct (Hok _ eq_refl) as (all & Hall & Hkeys).
  assert (Hunfiltered :
    all = match sample_analyze_file "a.mp3" "standard" [] with
          | Ok found => found
          | Raise _ => ∅
          end).
  { unfold sample_analyze_file. rewrite Hall. reflexivity. }
  split.
  - rewrite (Hkeys "tempo"%string), Hunfiltered. vm_compute. reflexivity.
  - rewrite (Hkeys "energy"%string). reflexivity.
Defined.

Lemma analyze_file_unknown_depth_witness :
  sample_analyze_file "a.mp3" "deep" [] =
  sample_analyze_file "a.mp3" "comprehensive" [].
Proof.
  apply analyze_file_unknown_depth; discriminate.
Defined.

Lemma highlevel_features_ranges_witness :
  exists valence acousticness instrumentalness speechiness : Q,
    _extract_highlevel_features string
      (sample_measure (3 # 4)) (sample_measure 2500)
      (sample_measure (1 # 10)) (sample_measure 1500) (sample_measure 5000)
      "a.mp3"
    = Ok {[ "valence"%string := VFloat valence;
            "acousticness"%string := VFloat acousticness;
            "instrumentalness"%string := VFloat instrumentalness;
            "speechiness"%string := VFloat speechiness ]} /\
    (instrumentalness <= 1)%Q /\ (0 <= acousticness)%Q.
Proof.
  destruct (highlevel_features_ranges string
              (sample_measure (3 # 4)) (sample_measure 2500)
              (sample_measure (1 # 10)) (sample_measure 1500)
              (sample_measure 5000) "a.mp3" _ eq_refl)
    as (v & a & i & sp & Hf & _ & Ha & _ & Hi & _).
  exists v, a, i, sp. split; [rewrite <- Hf; reflexivity|].
  split; assumption.
Defined.

End ExtractorsProps.

(** ** server.py: the analysis service, further *)

Module ServerMore.
Import Py Processors PyFacts ProcessorsProps ProcessorsMore.
Import Server ServerProps Batch Extractors ExtractorsProps.

Section Service.

Variable sqrt : Q -> Q.
Variable analyze_file : string -> string -> list string -> result (gmap string value).
Variable str_value : value -> string.
Variable str_exn : exn -> string.

Local Abbreviation AnalyzeTrack :=
  (AnalyzeTrack sqrt analyze_file str_value str_exn).
Local Abbreviation batch_loop :=
  (batch_loop sqrt analyze_file str_value str_exn).
Local Abbreviation AnalyzeBatch :=
  (AnalyzeBatch sqrt analyze_file str_value str_exn).
Local Abbreviation track_raises := (track_raises sqrt analyze_file).

Lemma AnalyzeTrack_context (request : BatchAnalysisRequest.t)
    (path : string) (context : ServicerContext) :
  let single := AnalysisRequest.mk path (BatchAnalysisRequest.depth request)
                  (BatchAnalysisRequest.descriptors request) in
  (track_raises request path = false ->
   snd (AnalyzeTrack single context) = context) /\
  (track_raises request path = true ->
   code (snd (AnalyzeTrack single context)) = Some INTERNAL).
Proof.
  unfold Server.AnalyzeTrack, Batch.track_raises. simpl.
  destruct (analyze_file _ _ _) as [features|e]; simpl.
  - destruct (create_feature_vector sqrt features) as [v|e]; simpl.
    + split; [reflexivity|discriminate].
    + split; [discriminate|reflexivity].
  - split; [discriminate|reflexivity].
Qed.

Lemma batch_loop_context (request : BatchAnalysisRequest.t)
    (total completed errors : Z) (todo : list string)
    (context : ServicerContext) :
  code (snd (batch_loop request total completed errors todo context))
    = Some INTERNAL <->
  code context = Some INTERNAL \/
  exists path, path ∈ todo /\ track_raises request path = true.
Proof.
  revert completed errors context.
  induction todo as [|path todo IH]; intros completed errors context; simpl.
  - split; [auto|]. intros [H|(p & Hp & _)]; [exact H|].
    apply elem_of_nil in Hp. contradiction.
  - destruct (AnalyzeTrack_context request path context) as [Hok Hbad].
    simpl in Hok, Hbad.
    destruct (AnalyzeTrack _ context) as [outcome context1] eqn:Htrack.
    simpl in Hok, Hbad.
    set (completed1 := match outcome with
                       | Ok _ => ((completed + 1)%Z, errors)
                       | Raise _ => (completed, (errors + 1)%Z)
                       end).
    destruct completed1 as [c1 e1].
    specialize (IH c1 e1 context1).
    destruct (batch_loop request total c1 e1 todo context1)
      as [later context2] eqn:Hloop.
    simpl in *. rewrite IH. clear IH.
    destruct (track_raises request path) eqn:Hraise.
    + split; [|intros _; left; apply Hbad; reflexivity].
      intros _. right. exists path. split; [left|exact Hraise].
    + rewrite (Hok eq_refl). split.
      * intros [H|(p & Hp & Hr)]; [left; exact H|].
        right. exists p. split; [right; exact Hp|exact Hr].
      * intros [H|(p & Hp & Hr)]; [left; exact H|].
        apply elem_of_cons in Hp as [->|Hp]; [congruence|].
        right. exists p. split; assumption.
Qed.

(** X23: a batch leaves the status INTERNAL on its call exactly when the
    analysis of at least one of its files raised, although the errors
    count of every progress record is 0. *)
Theorem AnalyzeBatch_status (request : BatchAnalysisRequest.t)
    (context : ServicerContext) :
  code context = None ->
  (code (snd (AnalyzeBatch request context)) = Some INTERNAL <->
   exists path, path ∈ BatchAnalysisRequest.file_paths request /\
                track_raises request path = true).
Proof.
  intros Hnone. unfold Server.AnalyzeBatch. rewrite batch_loop_context.
  rewrite Hnone. split.
  - intros [H|H]; [discriminate H|exact H].
  - intros H. right. exact H.
Qed.


End Service.

Lemma AnalyzeBatch_status_witness :
  code (snd (AnalyzeBatch (fun x => x) sample_analysis (fun _ => ""%string)
               (fun _ => "error"%string) sample_batch (mkContext None None)))
  = Some INTERNAL.
Proof.
  apply AnalyzeBatch_status; [reflexivity|].
  exists "bad.mp3"%string. split; [right; left|reflexivity].
Defined.


Section Pipeline.

Variable sqrt : Q -> Q.
Variable str_value : value -> string.
Variable str_exn : exn -> string.
Variable audio : Type.
Variable _load_audio : string -> result audio.
Variable _extract_basic_features : audio -> result (gmap string value).
Variable _extract_rhythm_features : audio -> result (gmap string value).
Variable _extract_tonal_features : audio -> result (gmap string value).
Variable _extract_spectral_features : audio -> result (gmap string value).
Variable Energy : audio -> result Q.
Variable Centroid : audio -> result Q.
Variable ZeroCrossingRate : audio -> result Q.
Variable HFC : audio -> result Q.
Variable RollOff : audio -> result Q.

Local Abbreviation analyze_file :=
  (analyze_file audio _load_audio _extract_basic_features
     _extract_rhythm_features _extract_tonal_features
     _extract_spectral_features Energy Centroid ZeroCrossingRate HFC RollOff).

(** X25: [AnalyzeTrack] builds the feature vector from the features left
    by the descriptor filter: when the request lists descriptors, every
    name of [feature_order] that is not listed has the component 0 in
    the vector of a successful response, whatever the analysis found for
    it. *)
Theorem unrequested_descriptor_gives_zero_component
    (request : AnalysisRequest.t) (context : ServicerContext)
    (response : AnalysisResponse.t) (i : nat) (name : string) :
  AnalysisRequest.descriptors request <> [] ->
  feature_order !! i = Some name ->
  name ∉ AnalysisRequest.descriptors request ->
  fst (AnalyzeTrack sqrt analyze_file str_value str_exn request context)
    = Ok response ->
  AnalysisResponse.feature_vector response <> [] ->
  exists x, AnalysisResponse.feature_vector response !! i = Some x /\
            (x == 0)%Q.
Proof.
  intros Hne Hname Hout. unfold Server.AnalyzeTrack.
  rewrite (analyze_file_filtered audio _ _ _ _ _ _ _ _ _ _ _ _ _ Hne).
  destruct (Extractors.analyze_file _ _ _ _ _ _ _ _ _ _ _ _ _ [])
    as [all|e]; simpl; [|intros [= <-]; simpl; contradiction].
  set (features := filter (fun kv => kv.1 ∈ AnalysisRequest.descriptors request) all).
  assert (Habsent : features !! name = None).
  { apply map_lookup_filter_None_2. right. intros v _. exact Hout. }
  destruct (create_feature_vector sqrt features) as [v|e] eqn:Hv; simpl;
    [|intros [= <-]; simpl; contradiction].
  intros [= <-] _. simpl.
  unfold create_feature_vector in Hv.
  destruct (vector_values features) as [raw|e] eqn:Hraw; simpl in Hv;
    [|discriminate].
  injection Hv as <-.
  destruct (mapM_lookup _ _ _ _ _ Hraw Hname) as (y & Hy & Hfy).
  unfold feature_value in Hfy. rewrite Habsent in Hfy. injection Hfy as <-.
  apply _normalize_vector_lookup_zero. exact Hy.
Qed.

End Pipeline.

Lemma unrequested_descriptor_gives_zero_component_witness :
  exists response x,
    fst (AnalyzeTrack Norm.Qsqrt_up sample_analyze_file
           (fun _ => ""%string) (fun _ => "error"%string)
           (AnalysisRequest.mk "a.mp3" "standard" ["tempo"]%string)
           (mkContext None None)) = Ok response /\
    AnalysisResponse.feature_vector response !! 1%nat = Some x /\
    (x == 0)%Q.
Proof.
  destruct (fst (AnalyzeTrack Norm.Qsqrt_up sample_analyze_file
                   (fun _ => ""%string) (fun _ => "error"%string)
                   (AnalysisRequest.mk "a.mp3" "standard" ["tempo"]%string)
                   (mkContext None None))) as [response|e] eqn:Hrun;
    [|vm_compute in Hrun; discriminate Hrun].
  assert (Hvec : AnalysisResponse.feature_vector response <> []).
  { vm_compute in Hrun. injection Hrun as <-. discriminate. }
  assert (Hout : "energy"%string ∉ ["tempo"]%string).
  { intros H. apply elem_of_cons in H as [H|H]; [discriminate H|].
    apply elem_of_nil in H. exact H. }
  destruct (unrequested_descriptor_gives_zero_component Norm.Qsqrt_up
              (fun _ => ""%string) (fun _ => "error"%string)
              string (fun path => Ok path)
              (sample_extractor "energy" (3 # 4))
              (sample_extractor "tempo" 130)
              (sample_extractor "key_strength" (4 # 5))
              (sample_extractor "spectral_centroid" 2500)
              (sample_measure (3 # 4)) (sample_measure 2500)
              (sample_measure (1 # 10)) (sample_measure 1500)
              (sample_measure 5000)
              (AnalysisRequest.mk "a.mp3" "standard" ["tempo"]%string)
              (mkContext None None) response 1 "energy"
              ltac:(discriminate) eq_refl Hout Hrun Hvec) as (x & Hx & Hx0).
  exists response, x. split; [reflexivity|]. split; assumption.
Defined.

End ServerMore.
